(** * PiDNG conversion core

    A shallow embedding of [src/pidng/core.py]: the converter classes
    [DNGBASE], [RAW2DNG], [CAM2DNG], [RPICAM2DNG] and [PICAM2DNG], with the
    part of numpy they use.

    - A two-dimensional numpy array is a record of its element type, its
      column count and its rows; elements are integers ([Z]), with the
      wrap-around of the element type written out where the code computes.
    - Raised exceptions are values of [error]; a method that can raise
      returns a [result].
    - What a conversion does to the world (warnings, calls of the external
      coder, buffer allocation, file output) is recorded as a list of
      [event]s next to the result.

    Part I holds the definitions, Part II the theorems. *)

From Stdlib Require Import ZArith List Lia Bool String Ascii.
From stdpp Require Import base option list gmap strings sorting.
Import ListNotations.

(* ================================================================== *)
(** * Part I. Definitions *)
(* ================================================================== *)

(** ** Exceptions and results *)

(** The three tags [__tags_condition__] asks for. *)
Inductive required_tag := ReqImageWidth | ReqImageLength | ReqBitsPerSample.

(** One constructor per [raise] of core.py (its message in the comment) and
    per exception the interpreter or numpy raises on the paths modelled. *)
Inductive error :=
| ValidationError                 (* "RAW Data is not in correct format. Must be uint16_t or float32_t Numpy Array. " *)
| MissingRequiredTag (t : required_tag)
                                  (* "No width is defined in tags." / "No height is defined in tags." / "Bit per pixel is not defined." *)
| FilterNotArray                  (* TypeError "return value is not a valid numpy array!" *)
| FilterShapeError                (* ValueError "return array does not have the same shape!" *)
| FilterTypeError                 (* ValueError "array data type is invalid!" *)
| UnsupportedCompression          (* "Compression is not supported for floating-point data" *)
| InvalidPredictor                (* "Predictor must be either 1 or 6" *)
| OptionsNotSet                   (* "Options have not been set!" *)
| AttributeError                  (* attribute of None, or attribute never assigned *)
| IndexError                      (* rawValue[0] of an empty value *)
| TypeError                       (* os.path.join on a path that is None *)
| ImportError                     (* ljpegCompress is not installed *)
| NumpyValueError                 (* operands could not be broadcast together / view of an odd row *)
| OSError                         (* open() or write() failed: FileNotFoundError, PermissionError, ... *)
| ExternalError (code : Z).       (* raised inside an external collaborator *)

Inductive result (A : Type) :=
| Ok (x : A)
| Err (e : error).
Arguments Ok {A} x.
Arguments Err {A} e.

Definition is_ok {A} (r : result A) : bool :=
  match r with Ok _ => true | Err _ => false end.

(** ** The numpy arrays of the conversion *)

Module Np.

Inductive dtype := uint8 | uint16 | int16 | uint32 | int32 | float32 | float64.

#[global] Instance dtype_eq_dec : EqDecision dtype.
Proof. solve_decision. Defined.

(** Bytes per element ([dtype.itemsize]). *)
Definition itemsize (d : dtype) : nat :=
  match d with
  | uint8 => 1
  | uint16 | int16 => 2
  | uint32 | int32 | float32 => 4
  | float64 => 8
  end.

(** A 2-D array of shape [(length rows, ncols)].  The elements of a
    floating-point array are kept as their bit patterns: core.py never
    computes on them. *)
Record ndarray := NdArray {
  dt : dtype;
  ncols : nat;
  rows : list (list Z)
}.

Definition nrows (a : ndarray) : nat := length (rows a).
Definition shape (a : ndarray) : nat * nat := (nrows a, ncols a).

(** Every row has the declared number of columns. *)
Definition rectangular (a : ndarray) : Prop :=
  Forall (fun r => length r = ncols a) (rows a).

(** Every element is a byte, as in an array of element type [uint8]. *)
Definition byte_valued (a : ndarray) : Prop :=
  Forall (Forall (fun b => (0 <= b < 256)%Z)) (rows a).

#[global] Instance ndarray_eq_dec : EqDecision ndarray.
Proof. solve_decision. Defined.

(** *** Slicing *)

(** Number of elements kept by the slice [[:k]] of a sequence of length
    [n]: a negative [k] counts from the end, and everything is clamped. *)
Definition slice_stop (n : nat) (k : Z) : nat :=
  if (k <? 0)%Z then Z.to_nat (Z.of_nat n + k) else Nat.min (Z.to_nat k) n.

(** [data[:h, :w]] *)
Definition crop (a : ndarray) (h w : Z) : ndarray :=
  let c := slice_stop (ncols a) w in
  NdArray (dt a) c (map (take c) (take (slice_stop (nrows a) h) (rows a))).

(** [l[start::step]]: the countdown [phase] reaches zero at the elements
    that are selected. *)
Fixpoint strided {A} (phase step : nat) (l : list A) : list A :=
  match l with
  | [] => []
  | x :: l' =>
      match phase with
      | O => x :: strided (pred step) step l'
      | S p => strided p step l'
      end
  end.

(** Number of elements of [l[start::step]] when [l] has [n] elements. *)
Definition strided_len (start step n : nat) : nat :=
  if n <=? start then 0 else (n - start + step - 1) / step.

(** [np.delete(l, np.s_[start::step])] on one row. *)
Fixpoint delete_strided {A} (phase step : nat) (l : list A) : list A :=
  match l with
  | [] => []
  | x :: l' =>
      match phase with
      | O => delete_strided (pred step) step l'
      | S p => x :: delete_strided p step l'
      end
  end.

(** [l[start::step] = vals] on one row. *)
Fixpoint assign_strided {A} (phase step : nat) (l vals : list A) : list A :=
  match l with
  | [] => []
  | x :: l' =>
      match phase with
      | O =>
          match vals with
          | v :: vals' => v :: assign_strided (pred step) step l' vals'
          | [] => x :: l'
          end
      | S p => x :: assign_strided p step l' vals
      end
  end.

(** [l[start::step] |= vals] on one row. *)
Fixpoint ior_strided (phase step : nat) (l vals : list Z) : list Z :=
  match l with
  | [] => []
  | x :: l' =>
      match phase with
      | O =>
          match vals with
          | v :: vals' => Z.lor x v :: ior_strided (pred step) step l' vals'
          | [] => x :: l'
          end
      | S p => x :: ior_strided p step l' vals
      end
  end.

(** *** Broadcasting along the columns *)

(** A value of [value] columns can be stored into [target] columns. *)
Definition broadcastable (target value : nat) : bool :=
  (value =? target) || (value =? 1).

(** Column count of [x op y], when the two operands are compatible. *)
Definition bcast_shape (cx cy : nat) : option nat :=
  if cx =? cy then Some cx
  else if cx =? 1 then Some cy
  else if cy =? 1 then Some cx
  else None.

(** A row of one element stretched to [n] columns; any other row is
    already of the right length once the shapes were checked. *)
Definition bcast (n : nat) (v : list Z) : list Z :=
  match v with
  | [x] => repeat x n
  | _ => v
  end.

(** *** Arithmetic of element type uint16 *)

Definition u16 (x : Z) : Z := (x mod 65536)%Z.
Definition shl16 (x k : Z) : Z := u16 (Z.shiftl x k).
Definition add16 (x y : Z) : Z := u16 (x + y).

(** *** Serialisation *)

(** The [n] little-endian bytes of [x]. *)
Fixpoint le_bytes (n : nat) (x : Z) : list Z :=
  match n with
  | O => []
  | S n' => (x mod 256)%Z :: le_bytes n' (x / 256)%Z
  end.

(** [a.tobytes()] (C order, little-endian host). *)
Definition tobytes (a : ndarray) : list Z :=
  concat (map (fun r => concat (map (le_bytes (itemsize (dt a))) r)) (rows a)).

(** The C cast of a floating-point element (given by its bit pattern) to
    uint8, which numpy leaves to the platform. *)
Class FloatCast := { float_to_uint8 : dtype -> Z -> Z }.

(** [a.astype('uint8')]: integers are truncated to their low byte. *)
Definition astype_uint8 `{FloatCast} (a : ndarray) : ndarray :=
  let cast :=
    match dt a with
    | float32 | float64 => float_to_uint8 (dt a)
    | _ => fun x => (x mod 256)%Z
    end in
  NdArray uint8 (ncols a) (map (map cast) (rows a)).

(** Pairs of bytes read as one little-endian uint16. *)
Fixpoint pair_bytes (r : list Z) : list Z :=
  match r with
  | lo :: hi :: r' => (lo + 256 * hi)%Z :: pair_bytes r'
  | _ => []
  end.

(** [np.ascontiguousarray(a).view(np.uint16)] of a uint8 array: numpy
    refuses a last axis of odd size. *)
Definition view_uint16 (a : ndarray) : result ndarray :=
  if Nat.even (ncols a)
  then Ok (NdArray uint16 (ncols a / 2) (map pair_bytes (rows a)))
  else Err NumpyValueError.

End Np.
Import Np.

(** ** The Raspberry Pi unpacker: [RPICAM2DNG.__unpack_pixels__] *)

(** [self.model.fmt], a dict read through [get(key, default)] at the four
    keys "size", "stride", "bpp" and "format". *)
Record fmt_dict := FmtDict {
  fmt_size : option (Z * Z);
  fmt_stride : option Z;
  fmt_bpp : option Z;
  fmt_format : option string
}.

(** [needle in s] for strings. *)
Fixpoint contains (needle s : string) : bool :=
  String.prefix needle s ||
  match s with
  | EmptyString => false
  | String _ s' => contains needle s'
  end.

(** The stored bit depth [s_bpp]: lines 189-195. *)
Definition stored_bpp (fmt : fmt_dict) : Z :=
  let bpp := default 8%Z (fmt_bpp fmt) in
  if contains "CSI2P" (default EmptyString (fmt_format fmt)) then bpp else 16%Z.

(** [int(width * (s_bpp / 8))]: the float product is exact as long as it
    stays below 2^53, and [int] truncates towards zero. *)
Definition bytes_per_row (width s_bpp : Z) : Z := Z.quot (width * s_bpp) 8.

(** Line 198: [data[:height, :bytes_per_row]]. *)
Definition cropped (fmt : fmt_dict) (data : ndarray) : ndarray :=
  let '(width, height) := default (0%Z, 0%Z) (fmt_size fmt) in
  crop data height (bytes_per_row width (stored_bpp fmt)).

(** One turn of the loop of lines 202-203 on one row:
    [data[:, byte::5] |= ((data[:, 4::5] >> ((byte+1) * 2)) & 0b11)]. *)
Definition ior_low_bits (r : list Z) (byte : nat) : list Z :=
  ior_strided byte 5 r
    (bcast (strided_len byte 5 (length r))
       (map (fun v => Z.land (Z.shiftr v (Z.of_nat ((byte + 1) * 2))) 3)
            (strided 4 5 r))).

(** Lines 201-204 on one row. *)
Definition unpack10_row (r : list Z) : list Z :=
  let data := map (fun b => shl16 b 2) r in
  let data := foldl ior_low_bits data (seq 0 4) in
  delete_strided 4 5 data.

(** Lines 201-204: every in-place [|=] needs the fifth-byte columns to
    broadcast onto the columns they are combined into. *)
Definition unpack10 (a : ndarray) : result ndarray :=
  let n := ncols a in
  if forallb (fun byte => broadcastable (strided_len byte 5 n) (strided_len 4 5 n))
             (seq 0 4)
  then Ok (NdArray uint16 (n - strided_len 4 5 n) (map unpack10_row (rows a)))
  else Err NumpyValueError.

(** [x + y] of two uint16 rows broadcast to [c] columns. *)
Definition add_rows (c : nat) (x y : list Z) : list Z :=
  zip_with add16 (bcast c x) (bcast c y).

(** Lines 206-211 on one row; [out_cols] is the width of [unpacked_data],
    [ce] and [co] the widths of the two right-hand sides. *)
Definition unpack12_row (out_cols ce co : nat) (r : list Z) : list Z :=
  let even :=
    add_rows ce (map (fun v => shl16 v 4) (strided 0 3 r))
                (map (fun v => Z.land v 15) (strided 2 3 r)) in
  let odd :=
    add_rows co (map (fun v => shl16 v 4) (strided 1 3 r))
                (map (fun v => Z.land (Z.shiftr v 4) 15) (strided 2 3 r)) in
  let unpacked_data := repeat 0%Z out_cols in
  let unpacked_data :=
    assign_strided 0 2 unpacked_data (bcast (strided_len 0 2 out_cols) even) in
  assign_strided 1 2 unpacked_data (bcast (strided_len 1 2 out_cols) odd).

(** Lines 206-211.  [int(shape[1] / 3 * 2)] is [2 * n / 3] rounded down
    (the float quotient is off by far less than the distance of [2n/3] to
    the next integer). *)
Definition unpack12 (a : ndarray) : result ndarray :=
  let n := ncols a in
  let out_cols := (2 * n) / 3 in
  match bcast_shape (strided_len 0 3 n) (strided_len 2 3 n) with
  | None => Err NumpyValueError
  | Some ce =>
      if negb (broadcastable (strided_len 0 2 out_cols) ce) then Err NumpyValueError
      else
        match bcast_shape (strided_len 1 3 n) (strided_len 2 3 n) with
        | None => Err NumpyValueError
        | Some co =>
            if negb (broadcastable (strided_len 1 2 out_cols) co) then Err NumpyValueError
            else Ok (NdArray uint16 out_cols (map (unpack12_row out_cols ce co) (rows a)))
        end
  end.

(** Lines 187-215 of [RPICAM2DNG.__unpack_pixels__]: what happens to an
    array of bytes under the capture format [fmt]. *)
Definition unpack_stored (fmt : fmt_dict) (data : ndarray) : result ndarray :=
  let s_bpp := stored_bpp fmt in
  let data := cropped fmt data in
  if (s_bpp =? 10)%Z then unpack10 data
  else if (s_bpp =? 12)%Z then unpack12 data
  else if (s_bpp =? 16)%Z then view_uint16 data
  else Ok data.

(** *** The packed layouts, group by group *)

(** What the 10-bit branch computes on a row of whole 5-byte groups:
    sample [i] is byte [i] shifted left by 2, with bits [2i+1..2i] of the
    fifth byte below it. *)
Definition sample10 (i : Z) (b b4 : Z) : Z :=
  Z.lor (Z.shiftl b 2) (Z.land (Z.shiftr b4 (2 * i)) 3).

Fixpoint groups10 (r : list Z) : list Z :=
  match r with
  | b0 :: b1 :: b2 :: b3 :: b4 :: r' =>
      sample10 0 b0 b4 :: sample10 1 b1 b4 :: sample10 2 b2 b4 :: sample10 3 b3 b4
      :: groups10 r'
  | _ => []
  end.

(** The 10-bit rule in the words of the specification: the two low bits of
    sample [byteIndex] sit in the fifth byte at bit offset
    [(byteIndex+1)*2]. *)
Definition sample10_spec (byteIndex : Z) (b b4 : Z) : Z :=
  Z.lor (Z.shiftl b 2) (Z.land (Z.shiftr b4 ((byteIndex + 1) * 2)) 3).

Fixpoint groups10_spec (r : list Z) : list Z :=
  match r with
  | b0 :: b1 :: b2 :: b3 :: b4 :: r' =>
      sample10_spec 0 b0 b4 :: sample10_spec 1 b1 b4 :: sample10_spec 2 b2 b4
      :: sample10_spec 3 b3 b4 :: groups10_spec r'
  | _ => []
  end.

(** The 12-bit rule: [sample0 = (byte0 << 4) | (byte2 & 0x0F)] and
    [sample1 = (byte1 << 4) | ((byte2 >> 4) & 0x0F)]. *)
Fixpoint groups12 (r : list Z) : list Z :=
  match r with
  | byte0 :: byte1 :: byte2 :: r' =>
      Z.lor (Z.shiftl byte0 4) (Z.land byte2 15)
      :: Z.lor (Z.shiftl byte1 4) (Z.land (Z.shiftr byte2 4) 15)
      :: groups12 r'
  | _ => []
  end.

(** ** Tags and the tag registry *)

(** Modelled from the spec: the tag classes of dng.py and the registry of
    defs.py are not under src/.  A tag is "(numeric id, type enum, count,
    raw value(s))"; the count is the length of the raw value.  core.py reads
    [rawValue] and calls [setValue]. *)
Inductive tag_type := Byte | Ascii | Short | Long | Rational | OtherType (code : Z).

#[global] Instance tag_type_eq_dec : EqDecision tag_type.
Proof. solve_decision. Defined.

(** An entry of the registry, such as [Tag.ImageWidth]. *)
Record tag_key := TagKey { key_id : Z; key_type : tag_type }.

Record dngTag := DngTag {
  TagId : Z;
  DataType : tag_type;
  rawValue : list Z
}.

#[global] Instance dngTag_eq_dec : EqDecision dngTag.
Proof. solve_decision. Defined.

(** [dngTag(key, value)] *)
Definition mk_tag (key : tag_key) (value : list Z) : dngTag :=
  DngTag (key_id key) (key_type key) value.

(** [tag.setValue(value)] *)
Definition setValue (tag : dngTag) (value : list Z) : dngTag :=
  DngTag (TagId tag) (DataType tag) value.

(** Modelled from the spec: [DNGTags] (dng.py) is the Tag Table, a "mapping
    from tag id to Tag; ids unique".  [tags.get(key)] is a lookup that
    yields [None] for an absent id, [tags.list()] the tags it holds. *)
Abbreviation DNGTags := (gmap Z dngTag).

Definition tags_get (tags : DNGTags) (key : tag_key) : option dngTag :=
  tags !! key_id key.

Definition tags_list (tags : DNGTags) : list dngTag :=
  (map_to_list tags).*2.

Module Tag.
(** The registry entries core.py names; their numbers and types are fixed
    outside the repository's src/. *)
Class Registry := {
  ImageWidth : tag_key;
  ImageLength : tag_key;
  BitsPerSample : tag_key;
  StripOffsets : tag_key;
  NewSubfileType : tag_key;
  StripByteCounts : tag_key;
  Compression : tag_key;
  Software : tag_key;
  DNGVersion : tag_key;
  DNGBackwardVersion : tag_key;
  SampleFormat : tag_key
}.
End Tag.

Module Compression.
Class Codes := { LJ92 : Z; Uncompressed : Z }.
End Compression.

Module DNGVersion.
Class Codes := { V1_0 : list Z; V1_4 : list Z }.
End DNGVersion.

Module SampleFormat.
Class Codes := { Uint : Z; FloatingPoint : Z }.
End SampleFormat.

(** ** External collaborators *)

(** [from ljpegCompress import pack16tolj]: [None] when the module cannot
    be imported.  The coder receives the frame, width, height, bit depth
    and predictor (the other arguments are the constants 0, 0, 0 and the
    empty string) and returns the tile or raises. *)
Class LjpegCompress := {
  ljpegCompress : option (ndarray -> Z -> Z -> Z -> Z -> result (list Z))
}.

(** [from .packing import *]: the Bit Packer is not under src/; a packer
    takes the frame and returns the packed uint8 array or raises. *)
Class Packing := {
  pack10 : ndarray -> result ndarray;
  pack12 : ndarray -> result ndarray;
  pack14 : ndarray -> result ndarray
}.

(** [open(outputDNG, "wb")] and [outfile.write(buf)]: the file system is
    outside the program, and either call can raise. *)
Class FileSystem := {
  open_wb : string -> result unit;
  outfile_write : string -> list Z -> result unit
}.

(** ** Effects *)

Inductive event :=
| Warn                                          (* warnings.warn(...) *)
| CoderCall (frame : ndarray) (width height bpp predictor : Z)
                                                (* pack16tolj(frame, width, height, bpp, 0, 0, 0, "", predictor) *)
| Alloc (n : nat)                               (* bytearray(n) *)
| FileOpen (path : string)                      (* open(path, "wb") returned: the file is there, empty *)
| FileWrite (path : string) (content : list Z). (* outfile.write(content) returned *)

(** A computation: the events it caused, in order, and how it ended. *)
Definition M (A : Type) : Type := list event * result A.

Definition ret {A} (x : A) : M A := ([], Ok x).
Definition raise {A} (e : error) : M A := ([], Err e).
Definition emit (ev : event) : M unit := ([ev], Ok tt).
Definition lift {A} (r : result A) : M A := ([], r).

Definition bind {A B} (m : M A) (k : A -> M B) : M B :=
  match m with
  | (t, Ok x) => let '(t', r) := k x in (t ++ t', r)
  | (t, Err e) => (t, Err e)
  end.

Notation "'let!' x := m 'in' k" := (bind m (fun x => k))
  (at level 10, x name, m at level 100, k at level 200).
Notation "'do!' m 'in' k" := (bind m (fun _ => k))
  (at level 10, m at level 100, k at level 200).

Definition events {A} (m : M A) : list event := fst m.
Definition outcome {A} (m : M A) : result A := snd m.

Definition is_alloc (ev : event) : bool :=
  match ev with Alloc _ => true | _ => false end.
Definition is_coder_call (ev : event) : bool :=
  match ev with CoderCall _ _ _ _ _ => true | _ => false end.

(** The invocations of the external coder among the events. *)
Definition coder_calls (t : list event) : list event := List.filter is_coder_call t.

(** The buffer allocations among the events. *)
Definition allocations (t : list event) : list event := List.filter is_alloc t.

(** ** The container: header, directories, strips *)

(** Modelled from the spec: [dngIFD] and [DNG] (dng.py) are not under src/.
    The spec fixes the protocol, not the numbers: an IFD is "a directory
    block plus an overflow region" whose encoded length is "directory
    entries + overflow for values too wide to inline", computable "from tag
    contents alone"; the container is laid out as header, then directories
    with their overflow, then strips.  The sizes the container format fixes
    and the content of a directory entry stay parameters. *)
Class Layout := {
  header : list Z;                       (* the container header, byte for byte *)
  type_size : tag_type -> nat;           (* bytes of one value of a type *)
  entry_size : nat;                      (* bytes of one directory entry *)
  inline_max : nat;                      (* widest value kept inside its entry *)
  encode_entry : dngTag -> nat -> list Z (* entry of a tag whose overflow, if any, sits at a position *)
}.

Section Container.
Context `{Layout}.

(** Encoded width of a tag value: type size times count. *)
Definition value_len (t : dngTag) : nat :=
  type_size (DataType t) * length (rawValue t).

Definition value_bytes (t : dngTag) : list Z :=
  concat (map (le_bytes (type_size (DataType t))) (rawValue t)).

(** A value too wide to inline goes to the overflow region. *)
Definition overflows (t : dngTag) : bool := inline_max <? value_len t.
Definition overflow_len (t : dngTag) : nat := if overflows t then value_len t else 0.
Definition overflow_bytes (t : dngTag) : list Z := if overflows t then value_bytes t else [].

End Container.

Module dngIFD.
Section WithLayout.
Context `{Layout}.

(** Serialisation order: ascending tag id. *)
Definition tag_le (a b : dngTag) : Prop := (TagId a <= TagId b)%Z.

#[global] Instance tag_le_dec : RelDecision tag_le.
Proof. intros a b. unfold tag_le. apply _. Defined.

Definition ordered (tags : list dngTag) : list dngTag := merge_sort tag_le tags.

(** The closed-form encoded length of a directory: its entries plus the
    overflow of its wide values. *)
Definition dataLen (tags : list dngTag) : nat :=
  sum_list_with (fun t => entry_size + overflow_len t) tags.

(** The entries, each as the encoder gives it, the next overflow value
    going to position [pos]. *)
Fixpoint entries (pos : nat) (tags : list dngTag) : list Z :=
  match tags with
  | [] => []
  | t :: ts => encode_entry t pos ++ entries (pos + overflow_len t) ts
  end.

Definition overflow (tags : list dngTag) : list Z :=
  concat (map overflow_bytes tags).

(** The directory as written at absolute position [base]. *)
Definition raw (base : nat) (tags : list dngTag) : list Z :=
  let ts := ordered tags in
  entries (base + length ts * entry_size) ts ++ overflow ts.

End WithLayout.
End dngIFD.

(** A byte of the output buffer.  The mark [stored] is set by the writes
    of Pass 4 and by nothing else: it tells the bytes that were materialized
    from those the allocation left in place. *)
Record cell := Cell { byte : Z; stored : bool }.

(** [bytearray(n)]: [n] zero bytes, none of them written yet. *)
Definition bytearray (n : nat) : list cell := repeat (Cell 0 false) n.

(** The bytes a buffer holds. *)
Definition contents (buf : list cell) : list Z := map byte buf.

(** The number of bytes of a buffer that were written into it. *)
Definition materialized (buf : list cell) : nat := length (List.filter stored buf).

Module DNG.

(** [dngTemplate]: its directories (each the list [tags] of a [dngIFD]) and
    its strips. *)
Record t := Make {
  IFDs : list (list dngTag);
  ImageDataStrips : list (list Z)
}.

Section WithLayout.
Context `{Layout}.

Definition directories_len (d : t) : nat := sum_list_with dngIFD.dataLen (IFDs d).

(** Pass 2: header size + directories with overflow + strips. *)
Definition dataLen (d : t) : nat :=
  length header + directories_len d + sum_list_with length (ImageDataStrips d).

(** Offsets of the strips, a running sum from the end of the directories. *)
Fixpoint running_offsets (i pos : nat) (strips : list (list Z)) : list (nat * nat) :=
  match strips with
  | [] => []
  | s :: ss => (i, pos) :: running_offsets (S i) (pos + length s) ss
  end.

(** The dict [StripOffsets] that [dataLen()] leaves behind, as its items
    in insertion order: strip index and absolute offset. *)
Definition StripOffsets (d : t) : list (nat * nat) :=
  running_offsets 0 (length header + directories_len d) (ImageDataStrips d).

(** [buf[pos : pos + len(data)] = data] *)
Definition blit (pos : nat) (data : list Z) (buf : list cell) : list cell :=
  take pos buf ++ map (fun b => Cell b true) data ++ drop (pos + length data) buf.

(** The writes of Pass 4, in order, each with its position: header,
    directories, strips. *)
Fixpoint directory_writes (pos : nat) (ifds : list (list dngTag)) : list (nat * list Z) :=
  match ifds with
  | [] => []
  | tags :: rest =>
      (pos, dngIFD.raw pos tags) :: directory_writes (pos + dngIFD.dataLen tags) rest
  end.

Fixpoint strip_writes (offsets : list (nat * nat)) (strips : list (list Z))
  : list (nat * list Z) :=
  match offsets, strips with
  | (_, pos) :: offsets', s :: strips' => (pos, s) :: strip_writes offsets' strips'
  | _, _ => []
  end.

Definition writes (d : t) : list (nat * list Z) :=
  (0, header) :: directory_writes (length header) (IFDs d)
  ++ strip_writes (StripOffsets d) (ImageDataStrips d).

(** Writes that follow one another without gap or overlap from [pos]. *)
Fixpoint contiguous (pos : nat) (ws : list (nat * list Z)) : Prop :=
  match ws with
  | [] => True
  | w :: ws' => w.1 = pos /\ contiguous (pos + length w.2) ws'
  end.

(** [write()] into the buffer given by [setBuffer]. *)
Definition write (d : t) (buf : list cell) : list cell :=
  foldl (fun b w => blit w.1 w.2 b) buf (writes d).

End WithLayout.
End DNG.

(** ** The converter objects *)

(** [camdefs.BaseCameraModel], as far as core.py reads it. *)
Module BaseCameraModel.
Record t := Make { fmt : fmt_dict; tags : DNGTags }.
End BaseCameraModel.

(** What a Python call can hand back to [__filter__]: a 2-D array or
    something that is no array. *)
Inductive pyobj := PyArray (a : ndarray) | PyOther.

(** A Sample Filter Hook is any Python callable: it may write to the array
    it is given ([arg_after] is that array when the call is over), and it
    returns an object or raises. *)
Record hook_result := HookResult { arg_after : ndarray; returned : result pyobj }.
Definition hook : Type := ndarray -> hook_result.

Inductive klass := IsRAW2DNG | IsCAM2DNG | IsRPICAM2DNG | IsPICAM2DNG.

(** The attributes of a converter; [None] is Python's [None], and for
    [predictor] and [model] an attribute that was never assigned. *)
Module Self.
Record t := Make {
  cls : klass;
  compress : option bool;
  path : option string;
  tags : option DNGTags;
  filter : option hook;
  predictor : option Z;
  model : option BaseCameraModel.t
}.
End Self.

(** [s.endswith(suffix)] *)
Definition endswith (s suffix : string) : bool :=
  let n := String.length s in
  let k := String.length suffix in
  (k <=? n) && String.eqb (String.substring (n - k) k s) suffix.

(** [os.path.join(a, b)] on a POSIX host. *)
Definition path_join (a b : string) : string :=
  if String.prefix "/" b then b
  else if String.eqb a EmptyString || endswith a "/" then String.append a b
  else String.append a (String.append "/" b).

(** What [convert] returns: the path it wrote to, or the buffer. *)
Inductive output := OutPath (p : string) | OutBuf (buf : list Z).

Module DNGBASE.

(** Lines 11-15 ([CAM2DNG.__init__] adds the model). *)
Definition __init__ (c : klass) (model : option BaseCameraModel.t) : Self.t :=
  Self.Make c None None None None None model.

(** Lines 17-19. *)
Definition __data_condition__ (data : ndarray) : M unit :=
  if decide (dt data <> uint16 /\ dt data <> float32) then raise ValidationError
  else ret tt.

(** Lines 21-27. *)
Definition __tags_condition__ `{Tag.Registry} (tags : DNGTags) : result unit :=
  match tags_get tags Tag.ImageWidth with
  | None => Err (MissingRequiredTag ReqImageWidth)
  | Some _ =>
      match tags_get tags Tag.ImageLength with
      | None => Err (MissingRequiredTag ReqImageLength)
      | Some _ =>
          match tags_get tags Tag.BitsPerSample with
          | None => Err (MissingRequiredTag ReqBitsPerSample)
          | Some _ => Ok tt
          end
      end
  end.

(** Lines 29-30. *)
Definition __unpack_pixels__ (data : ndarray) : result ndarray := Ok data.

(** Lines 32-45.  The first component is the array [rawFrame] as the call
    leaves it, the second what [__filter__] returns or raises. *)
Definition __filter__ (rawFrame : ndarray) (filter : option hook)
  : ndarray * result ndarray :=
  match filter with
  | None => (rawFrame, Ok rawFrame)
  | Some f =>
      let r := f rawFrame in
      let rawFrame := arg_after r in
      (rawFrame,
       match returned r with
       | Err e => Err e
       | Ok PyOther => Err FilterNotArray
       | Ok (PyArray processed) =>
           if decide (shape processed <> shape rawFrame) then Err FilterShapeError
           else if decide (dt processed <> uint16) then Err FilterTypeError
           else Ok processed
       end)
  end.

(** [tags.get(key).rawValue[0]] *)
Definition first_value (tag : option dngTag) : result Z :=
  match tag with
  | None => Err AttributeError
  | Some tag =>
      match rawValue tag with
      | [] => Err IndexError
      | v :: _ => Ok v
      end
  end.

Section Process.
Context `{Tag.Registry, Compression.Codes, DNGVersion.Codes, SampleFormat.Codes}.
Context `{LjpegCompress, Packing, FloatCast, Layout}.

(** A call of the external coder [pack16tolj]. *)
Definition call_coder (pack16tolj : ndarray -> Z -> Z -> Z -> Z -> result (list Z))
    (rawFrame : ndarray) (width height bpp predictor : Z) : M (list Z) :=
  do! emit (CoderCall rawFrame width height bpp predictor) in
  lift (pack16tolj rawFrame width height bpp predictor).

(** Lines 66-89: the strip, from the coder or from the Bit Packer.
    [int(length/2)] is the quotient truncated towards zero. *)
Definition encode_tile (rawFrame : ndarray) (width length bpp : Z)
    (compress : bool) (predictor : Z) : M (list Z) :=
  if compress then
    match ljpegCompress with
    | None => raise ImportError
    | Some pack16tolj =>
        if (predictor =? 1)%Z then call_coder pack16tolj rawFrame width length bpp 1%Z
        else if (predictor =? 6)%Z
        then call_coder pack16tolj rawFrame (width * 2)%Z (Z.quot length 2) bpp 6%Z
        else raise InvalidPredictor
    end
  else
    if (bpp =? 8)%Z then ret (tobytes (astype_uint8 rawFrame))
    else if (bpp =? 10)%Z then let! a := lift (pack10 rawFrame) in ret (tobytes a)
    else if (bpp =? 12)%Z then let! a := lift (pack12 rawFrame) in ret (tobytes a)
    else if (bpp =? 14)%Z then let! a := lift (pack14 rawFrame) in ret (tobytes a)
    else ret (tobytes rawFrame).

(** "PiDNG" *)
Definition software : list Z := [80; 105; 68; 78; 71]%Z.

(** Lines 95-112: the tags of the main directory, the strip-offsets tag
    first, with one zero per strip. *)
Definition main_tags (strips : list (list Z)) (tags : DNGTags)
    (compression_scheme : Z) (backward_version : list Z) (sample_format : Z)
  : list dngTag :=
  [ mk_tag Tag.StripOffsets (map (fun _ => 0%Z) strips);
    mk_tag Tag.NewSubfileType [0%Z];
    mk_tag Tag.StripByteCounts (map (fun tile => Z.of_nat (length tile)) strips);
    mk_tag Tag.Compression [compression_scheme];
    mk_tag Tag.Software software;
    mk_tag Tag.DNGVersion DNGVersion.V1_4;
    mk_tag Tag.DNGBackwardVersion backward_version;
    mk_tag Tag.SampleFormat [sample_format] ]
  ++ tags_list tags.

(** Lines 118-119: [mainTagStripOffset] is the object the directory holds
    at index 0, so setting its value changes the directory. *)
Definition patch_offsets (ifd : list dngTag) (offsets : list (nat * nat)) : list dngTag :=
  match ifd with
  | mainTagStripOffset :: rest =>
      setValue mainTagStripOffset (map (fun item => Z.of_nat item.2) offsets) :: rest
  | [] => []
  end.

(** Lines 91-125. *)
Definition assemble (tile : list Z) (tags : DNGTags)
    (compression_scheme : Z) (backward_version : list Z) (sample_format : Z)
  : M (list Z) :=
  let strips := [tile] in
  let mainIFD := main_tags strips tags compression_scheme backward_version sample_format in
  let dngTemplate := DNG.Make [mainIFD] strips in
  let totalLength := DNG.dataLen dngTemplate in
  let mainIFD := patch_offsets mainIFD (DNG.StripOffsets dngTemplate) in
  let dngTemplate := DNG.Make [mainIFD] strips in
  do! emit (Alloc totalLength) in
  let buf := bytearray totalLength in
  ret (contents (DNG.write dngTemplate buf)).

(** Lines 48-125. *)
Definition __process__ (rawFrame : ndarray) (tags : DNGTags) (compress : bool)
    (predictor : Z) : M (list Z) :=
  let! width := lift (first_value (tags_get tags Tag.ImageWidth)) in
  let! length := lift (first_value (tags_get tags Tag.ImageLength)) in
  let! bpp := lift (first_value (tags_get tags Tag.BitsPerSample)) in
  let compression_scheme := if compress then Compression.LJ92 else Compression.Uncompressed in
  let is_float := bool_decide (dt rawFrame = float32) in
  let sample_format := if is_float then SampleFormat.FloatingPoint else SampleFormat.Uint in
  let backward_version := if is_float then DNGVersion.V1_4 else DNGVersion.V1_0 in
  if is_float && compress then raise UnsupportedCompression
  else
    let! tile := encode_tile rawFrame width length bpp compress predictor in
    assemble tile tags compression_scheme backward_version sample_format.

(** Lines 127-132. *)
Definition options (self : Self.t) (tags : DNGTags) (path : string) (compress : bool)
    (predictor : Z) : result Self.t :=
  match __tags_condition__ tags with
  | Err e => Err e
  | Ok _ =>
      Ok (Self.Make (Self.cls self) (Some compress) (Some path) (Some tags)
            (Self.filter self) (Some predictor) (Self.model self))
  end.

End Process.
End DNGBASE.

Module CAM2DNG.

(** Lines 170-174. *)
Definition options `{Tag.Registry} (self : Self.t) (path : string) (compress : bool)
  : result Self.t :=
  match Self.model self with
  | None => Err AttributeError
  | Some model =>
      match DNGBASE.__tags_condition__ (BaseCameraModel.tags model) with
      | Err e => Err e
      | Ok _ =>
          Ok (Self.Make (Self.cls self) (Some compress) (Some path)
                (Some (BaseCameraModel.tags model))
                (Self.filter self) (Self.predictor self) (Self.model self))
      end
  end.

End CAM2DNG.

Module RPICAM2DNG.

(** Lines 178-180. *)
Definition __data_condition__ (data : ndarray) : M unit :=
  if decide (dt data <> uint8) then emit Warn else ret tt.

(** Lines 182-215. *)
Definition __unpack_pixels__ (model : option BaseCameraModel.t) (data : ndarray)
  : result ndarray :=
  if decide (dt data <> uint8) then Ok data
  else
    match model with
    | None => Err AttributeError
    | Some model => unpack_stored (BaseCameraModel.fmt model) data
    end.

End RPICAM2DNG.

Module PICAM2DNG.

(** Lines 219-223. *)
Definition options `{Tag.Registry} (self : Self.t) (compress : bool) : result Self.t :=
  CAM2DNG.options self EmptyString compress.

End PICAM2DNG.

(** ** Conversion *)

(** The method a call [self.__data_condition__(image)] reaches. *)
Definition data_condition (self : Self.t) (image : ndarray) : M unit :=
  match Self.cls self with
  | IsRAW2DNG | IsCAM2DNG => DNGBASE.__data_condition__ image
  | IsRPICAM2DNG | IsPICAM2DNG => RPICAM2DNG.__data_condition__ image
  end.

(** The element types a class's [__data_condition__] lets pass in
    silence. *)
Definition accepted_dtype (c : klass) (d : dtype) : bool :=
  match c with
  | IsRAW2DNG | IsCAM2DNG => bool_decide (d = uint16) || bool_decide (d = float32)
  | IsRPICAM2DNG | IsPICAM2DNG => bool_decide (d = uint8)
  end.

(** The method a call [self.__unpack_pixels__(image)] reaches. *)
Definition unpack_pixels (self : Self.t) (image : ndarray) : result ndarray :=
  match Self.cls self with
  | IsRAW2DNG | IsCAM2DNG => DNGBASE.__unpack_pixels__ image
  | IsRPICAM2DNG | IsPICAM2DNG => RPICAM2DNG.__unpack_pixels__ (Self.model self) image
  end.

Section Convert.
Context `{Tag.Registry, Compression.Codes, DNGVersion.Codes, SampleFormat.Codes}.
Context `{LjpegCompress, Packing, FloatCast, Layout, FileSystem}.

(** Lines 142-157 of [convert]: from the unpacked samples to the output.
    The file is opened when the buffer is complete; an exception of [open]
    or of [write] leaves the [with] block as it is. *)
Definition convert_unpacked (self : Self.t) (tags : DNGTags) (unpacked : ndarray)
    (filename : string) : M output :=
  let! filtered := lift (DNGBASE.__filter__ unpacked (Self.filter self)).2 in
  let compress := default false (Self.compress self) in
  match Self.predictor self with
  | None => raise AttributeError
  | Some predictor =>
      let! buf := DNGBASE.__process__ filtered tags compress predictor in
      if 0 <? String.length filename then
        let filename :=
          if endswith filename ".dng" then filename else String.append filename ".dng" in
        match Self.path self with
        | None => raise TypeError
        | Some path =>
            let outputDNG := path_join path filename in
            do! lift (open_wb outputDNG) in
            do! emit (FileOpen outputDNG) in
            do! lift (outfile_write outputDNG buf) in
            do! emit (FileWrite outputDNG buf) in
            ret (OutPath outputDNG)
        end
      else ret (OutBuf buf)
  end.

(** [DNGBASE.convert], lines 134-157. *)
Definition convert (self : Self.t) (image : ndarray) (filename : string) : M output :=
  match Self.tags self with
  | None => raise OptionsNotSet
  | Some tags =>
      do! data_condition self image in
      let! unpacked := lift (unpack_pixels self image) in
      convert_unpacked self tags unpacked filename
  end.

(** [o.options(tags, path, compress, predictor)] followed by
    [o.convert(image, filename)] on a converter [o] of the base class. *)
Definition options_then_convert (self : Self.t) (tags : DNGTags) (path : string)
    (compress : bool) (predictor : Z) (image : ndarray) (filename : string) : M output :=
  let! self := lift (DNGBASE.options self tags path compress predictor) in
  convert self image filename.

End Convert.

(** ** A concrete environment

    The parameters above at values of the kind the TIFF and DNG registries
    give them, with stand-ins for the external coder and the Bit Packer.
    They serve to evaluate the model on concrete inputs. *)
Module Sample.

Definition registry : Tag.Registry := {|
  Tag.ImageWidth := TagKey 256 Long;
  Tag.ImageLength := TagKey 257 Long;
  Tag.BitsPerSample := TagKey 258 Short;
  Tag.StripOffsets := TagKey 273 Long;
  Tag.NewSubfileType := TagKey 254 Long;
  Tag.StripByteCounts := TagKey 279 Long;
  Tag.Compression := TagKey 259 Short;
  Tag.Software := TagKey 305 Ascii;
  Tag.DNGVersion := TagKey 50706 Byte;
  Tag.DNGBackwardVersion := TagKey 50707 Byte;
  Tag.SampleFormat := TagKey 339 Short
|}.

Definition compression : Compression.Codes :=
  {| Compression.LJ92 := 7; Compression.Uncompressed := 1 |}.

Definition versions : DNGVersion.Codes :=
  {| DNGVersion.V1_0 := [1; 0; 0; 0]%Z; DNGVersion.V1_4 := [1; 4; 0; 0]%Z |}.

Definition sample_formats : SampleFormat.Codes :=
  {| SampleFormat.Uint := 1; SampleFormat.FloatingPoint := 3 |}.

(** A stand-in coder: it hands back the frame's bytes. *)
Definition frame_bytes (frame : ndarray) (width height bpp predictor : Z)
  : result (list Z) := Ok (tobytes frame).

Definition coder : LjpegCompress := {| ljpegCompress := Some frame_bytes |}.

(** Stand-in packers: the low byte of every sample. *)
Definition low_bytes (a : ndarray) : result ndarray :=
  Ok (NdArray uint8 (ncols a) (map (map (fun x => x mod 256)%Z) (rows a))).

Definition packing : Packing :=
  {| pack10 := low_bytes; pack12 := low_bytes; pack14 := low_bytes |}.

Definition float_cast : FloatCast := {| float_to_uint8 := fun _ _ => 0%Z |}.

Definition type_code (ty : tag_type) : Z :=
  match ty with
  | Byte => 1 | Ascii => 2 | Short => 3 | Long => 4 | Rational => 5
  | OtherType code => code
  end.

Definition sizes (ty : tag_type) : nat :=
  match ty with
  | Byte | Ascii => 1
  | Short => 2
  | Long => 4
  | Rational => 8
  | OtherType _ => 1
  end.

(** The four-byte value field of an entry: the position of the value in
    the overflow region, or the value itself, left-justified. *)
Definition value_field (t : dngTag) (pos : nat) : list Z :=
  if 4 <? sizes (DataType t) * length (rawValue t)
  then le_bytes 4 (Z.of_nat pos)
  else
    let inline := concat (map (le_bytes (sizes (DataType t))) (rawValue t)) in
    inline ++ repeat 0%Z (4 - length inline).

Definition layout : Layout := {|
  header := [73; 73; 42; 0; 8; 0; 0; 0]%Z;
  type_size := sizes;
  entry_size := 12;
  inline_max := 4;
  encode_entry := fun t pos =>
    le_bytes 2 (TagId t) ++ le_bytes 2 (type_code (DataType t))
    ++ le_bytes 4 (Z.of_nat (length (rawValue t)))
    ++ value_field t pos
|}.

(** A file system on which every file can be opened and written. *)
Definition file_system : FileSystem :=
  {| open_wb := fun _ => Ok tt; outfile_write := fun _ _ => Ok tt |}.

(** A tag table with the three required tags: 4 x 1 samples of 16 bits. *)
Definition tags_4x1 : DNGTags :=
  <[256%Z := DngTag 256 Long [4%Z]]>
    (<[257%Z := DngTag 257 Long [1%Z]]>
       (<[258%Z := DngTag 258 Short [16%Z]]> ∅)).

(** Capture formats of a 4 x 1 sensor. *)
Definition fmt_of (bpp : Z) (format : string) : fmt_dict :=
  FmtDict (Some (4, 1)%Z) (Some 8%Z) (Some bpp) (Some format).

Definition model_of (bpp : Z) (format : string) : BaseCameraModel.t :=
  BaseCameraModel.Make (fmt_of bpp format) tags_4x1.

(** Four samples 1, 2, 3, 4 in the 10-bit layout the unpacker reads, and
    two in the 12-bit one. *)
Definition model10 : BaseCameraModel.t := model_of 10 "SBGGR10_CSI2P".
Definition packed10 : ndarray := NdArray uint8 5 [[0; 0; 0; 1; 57]%Z].

Definition model12 : BaseCameraModel.t :=
  BaseCameraModel.Make (FmtDict (Some (2, 1)%Z) (Some 4%Z) (Some 12%Z) (Some "SBGGR12_CSI2P"%string))
    tags_4x1.
Definition packed12 : ndarray := NdArray uint8 3 [[18; 52; 86]%Z].

(** A 14-bit capture format and a row of eight bytes. *)
Definition model14 : BaseCameraModel.t := model_of 14 "SBGGR14_CSI2P".
Definition bytes8 : ndarray := NdArray uint8 8 [[1; 2; 3; 4; 228; 255; 7; 8]%Z].

(** Sample arrays of 4 x 1 elements. *)
Definition frame_u16 : ndarray := NdArray uint16 4 [[1; 2; 3; 4]%Z].
Definition frame_f32 : ndarray :=
  NdArray float32 4 [[1065353216; 1073741824; 1077936128; 1082130432]%Z].

(** Hooks: one that hands back unsigned 16-bit samples whatever it gets,
    one that drops the last column. *)
Definition to_u16 : hook := fun a => HookResult a (Ok (PyArray frame_u16)).
Definition drop_column : hook :=
  fun a => HookResult a (Ok (PyArray (NdArray (dt a) (ncols a - 1) (map (take (ncols a - 1)) (rows a))))).

(** A tag table without the image length. *)
Definition tags_no_length : DNGTags := delete 257%Z tags_4x1.

(** Converters: a fresh [RAW2DNG]; a [RPICAM2DNG] as its [options] leaves
    it; the same after the caller assigned [predictor]. *)
Definition raw2dng : Self.t := DNGBASE.__init__ IsRAW2DNG None.

Definition raw2dng_ready : Self.t :=
  Self.Make IsRAW2DNG (Some false) (Some "out"%string) (Some tags_4x1) None (Some 6%Z) None.

Definition rpicam_after_options : Self.t :=
  Self.Make IsRPICAM2DNG (Some false) (Some "out"%string) (Some tags_4x1) None None
    (Some model10).

Definition rpicam_with_predictor : Self.t :=
  Self.Make IsRPICAM2DNG (Some false) (Some "out"%string) (Some tags_4x1) None (Some 6%Z)
    (Some model10).

End Sample.

(** ** Further inputs *)
Module Cases.

(** An unpacked capture format (no "CSI2P" in its name): two samples of 16
    bits per row, and a row of four bytes. *)
Definition model16 : BaseCameraModel.t :=
  BaseCameraModel.Make
    (FmtDict (Some (2, 1)%Z) (Some 4%Z) (Some 10%Z) (Some "SBGGR10"%string))
    Sample.tags_4x1.
Definition bytes4 : ndarray := NdArray uint8 4 [[1; 2; 3; 4]%Z].

(** A 10-bit capture format that does not say its size. *)
Definition model_without_size : BaseCameraModel.t :=
  BaseCameraModel.Make
    (FmtDict None None (Some 10%Z) (Some "SBGGR10_CSI2P"%string))
    Sample.tags_4x1.

(** The two samples the four bytes of [bytes4] spell, and a frame with a
    sample above 255. *)
Definition frame_2x1 : ndarray := NdArray uint16 2 [[513; 1027]%Z].
Definition frame_wide : ndarray := NdArray uint16 2 [[259; 5]%Z].

(** The packed rows of [Sample], each followed by a byte of row padding. *)
Definition packed10_padded : ndarray := NdArray uint8 6 [[0; 0; 0; 1; 57; 99]%Z].
Definition packed12_padded : ndarray := NdArray uint8 4 [[18; 52; 86; 99]%Z].

(** A hook that returns no array. *)
Definition returns_none : hook := fun a => HookResult a (Ok PyOther).

(** A coder that raises whatever it is given. *)
Definition failing (frame : ndarray) (width height bpp predictor : Z) : result (list Z) :=
  Err (ExternalError 1).
Definition failing_coder : LjpegCompress := {| ljpegCompress := Some failing |}.

(** An environment in which [ljpegCompress] cannot be imported. *)
Definition no_coder : LjpegCompress := {| ljpegCompress := None |}.

(** A file system without the output directory: no file can be opened. *)
Definition no_directory : FileSystem :=
  {| open_wb := fun _ => Err OSError; outfile_write := fun _ _ => Ok tt |}.

(** A tag table whose image-width tag holds no value. *)
Definition tags_empty_width : DNGTags :=
  <[256%Z := DngTag 256 Long []]> Sample.tags_4x1.

(** A container of two directories and three strips, one of them empty. *)
Definition two_directories : DNG.t :=
  DNG.Make
    [ [DngTag 305 Ascii [80; 105; 68; 78; 71]%Z; DngTag 256 Long [4%Z]];
      [DngTag 258 Short [16%Z]] ]
    [ [1; 2; 3]%Z; []; [4; 5]%Z ].

End Cases.

(** ** Proof tools *)

(** Case analysis on every comparison of two naturals in sight. *)
Ltac eqb_cases :=
  repeat match goal with
         | |- context [?x =? ?y] => destruct (Nat.eqb_spec x y)
         | H : context [?x =? ?y] |- _ => destruct (Nat.eqb_spec x y)
         end.

(* ================================================================== *)
(** * Part II. Theorems *)
(* ================================================================== *)
(** ** Bit arithmetic on bytes *)

Section UnpackFacts.
Local Open Scope Z_scope.

(** A byte shifted left by at most 8 fits in 16 bits: uint16 does not wrap. *)
Lemma shiftl_byte_small (b k : Z) :
  0 <= b < 256 -> 0 <= k <= 8 -> shl16 b k = Z.shiftl b k.
Proof.
  intros Hb Hk. unfold shl16, u16. rewrite Z.shiftl_mul_pow2 by lia.
  apply Z.mod_small. split; [nia|].
  assert (2 ^ k <= 2 ^ 8) by (apply Z.pow_le_mono_r; lia).
  change (2 ^ 8) with 256 in *. nia.
Qed.

(** Reading bits [(i+1)*2+1 .. (i+1)*2] of the fifth byte after it was
    shifted left by 2 is reading bits [2i+1 .. 2i] of the byte itself. *)
Lemma low_bits_of_shifted (b4 : Z) (i : nat) :
  0 <= b4 < 256 ->
  Z.land (Z.shiftr (shl16 b4 2) (Z.of_nat ((i + 1) * 2))) 3
  = Z.land (Z.shiftr b4 (2 * Z.of_nat i)) 3.
Proof.
  intros Hb. rewrite shiftl_byte_small by lia.
  rewrite Z.shiftr_shiftl_r by lia. do 2 f_equal. lia.
Qed.

(** The sum of line 209 / 210 has no carry: it is the bitwise or. *)
Lemma lor_nibble (b x : Z) :
  0 <= b < 256 -> 0 <= x < 16 ->
  add16 (shl16 b 4) x = Z.lor (Z.shiftl b 4) x.
Proof.
  intros Hb Hx. rewrite shiftl_byte_small by lia.
  assert (Hland : Z.land (Z.shiftl b 4) x = 0).
  { apply Z.bits_inj'. intros n Hn. rewrite Z.land_spec, Z.bits_0.
    destruct (Z.lt_ge_cases n 4) as [Hlt | Hge].
    - rewrite Z.shiftl_spec_low by lia. reflexivity.
    - rewrite <- (Z.mod_small x (2 ^ 4)) by (change (2 ^ 4) with 16; lia).
      rewrite Z.mod_pow2_bits_high by lia. apply andb_false_r. }
  rewrite <- Z.lxor_lor, <- Z.add_nocarry_lxor by assumption.
  unfold add16, u16. apply Z.mod_small.
  rewrite Z.shiftl_mul_pow2 by lia. change (2 ^ 4) with 16. lia.
Qed.

End UnpackFacts.

(** ** Rows made of whole groups *)

Section RowFacts.

Lemma strided_len_whole (b s k : nat) : b < s -> strided_len b s (s * k) = k.
Proof.
  intros Hb. unfold strided_len.
  destruct (Nat.leb_spec (s * k) b) as [Hle | Hlt].
  - destruct k; [reflexivity | nia].
  - symmetry. apply (Nat.div_unique _ _ _ (s - 1 - b)); [lia | nia].
Qed.

Lemma bcast_same_length (n : nat) (v : list Z) : length v = n -> bcast n v = v.
Proof.
  intros <-. destruct v as [| x [| y v]]; reflexivity.
Qed.

Lemma length_ior_strided (p s : nat) (l v : list Z) :
  length (ior_strided p s l v) = length l.
Proof.
  revert p v. induction l as [| x l IH]; intros p v; simpl; [reflexivity |].
  destruct p; [destruct v |]; simpl; rewrite ?IH; reflexivity.
Qed.

End RowFacts.

(** ** The 10-bit branch on one row *)

Section Unpack10.
Local Open Scope Z_scope.

Lemma group5_inv {A} (k : nat) (l : list A) :
  length l = (5 * S k)%nat ->
  exists a b c d e r, l = a :: b :: c :: d :: e :: r /\ length r = (5 * k)%nat.
Proof.
  intros Hl.
  destruct l as [| a [| b [| c [| d [| e r]]]]]; simpl in Hl; try lia.
  exists a, b, c, d, e, r. split; [reflexivity | lia].
Qed.

Lemma length_strided_4_5 {A} (k : nat) (l : list A) :
  length l = (5 * k)%nat -> length (strided 4 5 l) = k.
Proof.
  revert l. induction k as [| k IH]; intros l Hl.
  - destruct l; [reflexivity | simpl in Hl; lia].
  - destruct (group5_inv k l Hl) as (a & b & c & d & e & r & -> & Hr).
    simpl. f_equal. apply IH, Hr.
Qed.


(** One turn of the loop without the broadcast. *)
Lemma ior_low_bits_whole (k byte : nat) (r : list Z) :
  length r = (5 * k)%nat -> (byte < 4)%nat ->
  ior_low_bits r byte
  = ior_strided byte 5 r
      (map (fun v => Z.land (Z.shiftr v (Z.of_nat ((byte + 1) * 2))) 3) (strided 4 5 r)).
Proof.
  intros Hr Hb. unfold ior_low_bits. rewrite bcast_same_length; [reflexivity |].
  rewrite length_map, (length_strided_4_5 k), Hr by assumption.
  symmetry. apply strided_len_whole. lia.
Qed.

Lemma unpack10_row_groups (k : nat) (r : list Z) :
  length r = (5 * k)%nat -> Forall (fun b => 0 <= b < 256) r ->
  unpack10_row r = groups10 r.
Proof.
  intros Hr Hb. unfold unpack10_row. simpl foldl.
  assert (Hlen : length (map (fun b => shl16 b 2) r) = (5 * k)%nat)
    by (rewrite length_map; exact Hr).
  rewrite (ior_low_bits_whole k 0) by (assumption || lia).
  rewrite (ior_low_bits_whole k 1) by (rewrite ?length_ior_strided; assumption || lia).
  rewrite (ior_low_bits_whole k 2) by (rewrite ?length_ior_strided; assumption || lia).
  rewrite (ior_low_bits_whole k 3) by (rewrite ?length_ior_strided; assumption || lia).
  clear Hlen. revert r Hr Hb. induction k as [| k IH]; intros r Hr Hb.
  - destruct r; [reflexivity | simpl in Hr; lia].
  - destruct (group5_inv k r Hr) as (a & b & c & d & e & r' & -> & Hr').
    repeat match goal with H : Forall _ (_ :: _) |- _ => apply Forall_cons in H as [? H] end.
    cbn [map strided ior_strided delete_strided pred].
    rewrite IH by assumption.
    unfold sample10.
    rewrite !shiftl_byte_small by lia.
    rewrite <- !(shiftl_byte_small e 2) by lia.
    rewrite (low_bits_of_shifted e 0), (low_bits_of_shifted e 1),
      (low_bits_of_shifted e 2), (low_bits_of_shifted e 3) by lia.
    reflexivity.
Qed.
End Unpack10.

(** ** The 12-bit branch on one row *)

Section Unpack12.
Local Open Scope Z_scope.

Lemma group3_inv {A} (k : nat) (l : list A) :
  length l = (3 * S k)%nat ->
  exists a b c r, l = a :: b :: c :: r /\ length r = (3 * k)%nat.
Proof.
  intros Hl.
  destruct l as [| a [| b [| c r]]]; simpl in Hl; try lia.
  exists a, b, c, r. split; [reflexivity | lia].
Qed.

Lemma length_strided_3 {A} (p k : nat) (l : list A) :
  (p < 3)%nat -> length l = (3 * k)%nat -> length (strided p 3 l) = k.
Proof.
  intros Hp. revert l. induction k as [| k IH]; intros l Hl.
  - destruct l; [reflexivity | simpl in Hl; lia].
  - destruct (group3_inv k l Hl) as (a & b & c & r & -> & Hr).
    destruct p as [| [| [| p]]]; try lia; simpl; f_equal; apply IH, Hr.
Qed.

Lemma land_15_range (v : Z) : 0 <= Z.land v 15 < 16.
Proof.
  change 15 with (Z.ones 4). rewrite Z.land_ones by lia.
  apply Z.mod_pos_bound. lia.
Qed.

Lemma unpack12_row_groups (k : nat) (r : list Z) :
  length r = (3 * k)%nat -> Forall (fun b => 0 <= b < 256) r ->
  unpack12_row (2 * k) k k r = groups12 r.
Proof.
  intros Hr Hb. unfold unpack12_row, add_rows.
  rewrite !(strided_len_whole _ 2) by lia.
  rewrite !(bcast_same_length k (map _ _))
    by (rewrite length_map; apply length_strided_3; assumption || lia).
  rewrite !(bcast_same_length k (zip_with _ _ _))
    by (rewrite length_zip_with, !length_map, !(length_strided_3 _ k) by (assumption || lia); lia).
  revert r Hr Hb. induction k as [| k IH]; intros r Hr Hb.
  - destruct r; [reflexivity | simpl in Hr; lia].
  - destruct (group3_inv k r Hr) as (a & b & c & r' & -> & Hr').
    repeat match goal with H : Forall _ (_ :: _) |- _ => apply Forall_cons in H as [? H] end.
    replace (2 * S k)%nat with (S (S (2 * k))) by lia.
    cbn [map strided zip_with assign_strided repeat pred groups12].
    rewrite <- IH by assumption.
    rewrite !lor_nibble by (apply land_15_range || lia).
    reflexivity.
Qed.

End Unpack12.

(** ** [RPICAM2DNG.__unpack_pixels__] *)

Section UnpackPixels.

Lemma slice_stop_le (n : nat) (k : Z) : slice_stop n k <= n.
Proof. unfold slice_stop. destruct (k <? 0)%Z eqn:E; lia. Qed.

Lemma crop_rectangular (a : ndarray) (h w : Z) :
  rectangular a -> rectangular (crop a h w).
Proof.
  unfold rectangular, crop. cbn [rows ncols]. intros Ha.
  apply Forall_map, Forall_take.
  eapply Forall_impl; [exact Ha |]. intros r Hr. cbn beta.
  rewrite length_take, Hr. pose proof (slice_stop_le (ncols a) w). lia.
Qed.

Lemma crop_byte_valued (a : ndarray) (h w : Z) :
  byte_valued a -> byte_valued (crop a h w).
Proof.
  unfold byte_valued, crop. cbn [rows]. intros Ha.
  apply Forall_map, Forall_take.
  eapply Forall_impl; [exact Ha |]. intros r Hr. apply Forall_take, Hr.
Qed.

Lemma cropped_rectangular (fmt : fmt_dict) (data : ndarray) :
  rectangular data -> rectangular (cropped fmt data).
Proof. unfold cropped. destruct (default _ _). apply crop_rectangular. Qed.

Lemma cropped_byte_valued (fmt : fmt_dict) (data : ndarray) :
  byte_valued data -> byte_valued (cropped fmt data).
Proof. unfold cropped. destruct (default _ _). apply crop_byte_valued. Qed.

Lemma rows_whole (P : list Z -> list Z) (Q : list Z -> list Z) (a : ndarray) :
  rectangular a -> byte_valued a ->
  (forall r, length r = ncols a -> Forall (fun b => (0 <= b < 256)%Z) r -> P r = Q r) ->
  map P (rows a) = map Q (rows a).
Proof.
  unfold rectangular, byte_valued. intros Hrect Hbytes HPQ.
  apply map_ext_Forall.
  rewrite Forall_forall in *. intros r Hin. apply HPQ; auto.
Qed.

(** C3, as amended.  For every packed 10-bit buffer (an array of bytes made,
    after the crop, of whole 5-byte groups) the unpacker turns each group
    into 4 samples of 16 bits and drops the fifth byte column: sample [i]
    is byte [i] shifted left by 2, or-ed with the two bits found at bit
    offset [2*i] of the fifth byte.  (The code shifts the fifth byte left by
    2 as well and reads it at offset [(i+1)*2]: [low_bits_of_shifted].) *)
Theorem unpack10_whole_groups (model : BaseCameraModel.t) (data : ndarray) (k : nat) :
  let fmt := BaseCameraModel.fmt model in
  dt data = uint8 -> rectangular data -> byte_valued data ->
  stored_bpp fmt = 10%Z ->
  ncols (cropped fmt data) = 5 * k ->
  RPICAM2DNG.__unpack_pixels__ (Some model) data
  = Ok (NdArray uint16 (4 * k) (map groups10 (rows (cropped fmt data)))).
Proof.
  intros fmt Hdt Hrect Hbytes Hbpp Hcols.
  unfold RPICAM2DNG.__unpack_pixels__, unpack_stored. fold fmt.
  destruct (decide (dt data <> uint8)) as [Hne | _]; [congruence |].
  rewrite Hbpp. cbn [Z.eqb Pos.eqb].
  unfold unpack10. rewrite Hcols. cbn [seq forallb].
  rewrite !strided_len_whole by lia.
  unfold broadcastable. rewrite Nat.eqb_refl. cbn [orb andb].
  do 2 f_equal; [lia |].
  apply rows_whole; auto using cropped_rectangular, cropped_byte_valued.
  intros r Hr Hb. apply (unpack10_row_groups k); [lia | exact Hb].
Qed.

(** C4.  For every packed 12-bit buffer (an array of bytes made, after the
    crop, of whole 3-byte groups) the unpacker turns each group
    [byte0, byte1, byte2] into exactly 2 samples,
    [(byte0 << 4) | (byte2 & 0x0F)] and
    [(byte1 << 4) | ((byte2 >> 4) & 0x0F)]. *)
Theorem unpack12_whole_groups (model : BaseCameraModel.t) (data : ndarray) (k : nat) :
  let fmt := BaseCameraModel.fmt model in
  dt data = uint8 -> rectangular data -> byte_valued data ->
  stored_bpp fmt = 12%Z ->
  ncols (cropped fmt data) = 3 * k ->
  RPICAM2DNG.__unpack_pixels__ (Some model) data
  = Ok (NdArray uint16 (2 * k) (map groups12 (rows (cropped fmt data)))).
Proof.
  intros fmt Hdt Hrect Hbytes Hbpp Hcols.
  unfold RPICAM2DNG.__unpack_pixels__, unpack_stored. fold fmt.
  destruct (decide (dt data <> uint8)) as [Hne | _]; [congruence |].
  rewrite Hbpp. cbn [Z.eqb Pos.eqb].
  unfold unpack12. rewrite Hcols.
  replace (2 * (3 * k) / 3) with (2 * k)
    by (apply (Nat.div_unique _ _ _ 0); lia).
  rewrite !strided_len_whole by lia.
  unfold bcast_shape, broadcastable. rewrite !Nat.eqb_refl. cbn [orb negb].
  do 2 f_equal.
  apply rows_whole; auto using cropped_rectangular, cropped_byte_valued.
  intros r Hr Hb. apply unpack12_row_groups; [lia | exact Hb].
Qed.

(** C5, as amended.  For every capture format whose stored bit depth is
    not 10, 12 or 16 the unpacker raises nothing: it returns the array of
    bytes cropped to the declared size, element type unchanged (and an
    array that does not hold bytes as it came). *)
Theorem unpack_other_depth_returns (model : BaseCameraModel.t) (data : ndarray) :
  let fmt := BaseCameraModel.fmt model in
  stored_bpp fmt <> 10%Z -> stored_bpp fmt <> 12%Z -> stored_bpp fmt <> 16%Z ->
  RPICAM2DNG.__unpack_pixels__ (Some model) data
  = Ok (if decide (dt data = uint8) then cropped fmt data else data).
Proof.
  intros fmt H10 H12 H16. unfold RPICAM2DNG.__unpack_pixels__, unpack_stored. fold fmt.
  destruct (decide (dt data <> uint8)) as [Hne | He];
    destruct (decide (dt data = uint8)) as [Heq | Hneq];
    try congruence; try contradiction.
  rewrite (proj2 (Z.eqb_neq _ _) H10), (proj2 (Z.eqb_neq _ _) H12),
    (proj2 (Z.eqb_neq _ _) H16).
  reflexivity.
Qed.

End UnpackPixels.

(** ** [DNGBASE.__filter__] *)

Section Filter.

(** C9, as amended.  For every Sample Filter Hook whose result is an array
    of a shape other than the input's, or of an element type other than
    unsigned 16-bit, applying the filter fails, with [FilterShapeError] when
    the shapes differ and with [FilterTypeError] otherwise; the failure
    writes nothing to the input array, which is as the hook's own call left
    it.  Without a hook the filter step is the identity. *)
Theorem filter_contract (rawFrame : ndarray) (f : hook) (processed : ndarray) :
  returned (f rawFrame) = Ok (PyArray processed) ->
  shape processed <> shape (arg_after (f rawFrame)) \/ dt processed <> uint16 ->
  DNGBASE.__filter__ rawFrame (Some f)
  = (arg_after (f rawFrame),
     Err (if decide (shape processed = shape (arg_after (f rawFrame)))
          then FilterTypeError else FilterShapeError))
  /\ DNGBASE.__filter__ rawFrame None = (rawFrame, Ok rawFrame).
Proof.
  intros Hret Hbad. split; [| reflexivity].
  unfold DNGBASE.__filter__. rewrite Hret.
  destruct (decide (shape processed = shape (arg_after (f rawFrame)))) as [Heq | Hne].
  - destruct (decide (shape processed <> shape (arg_after (f rawFrame)))); [contradiction |].
    destruct Hbad as [Hbad | Hbad]; [contradiction |].
    destruct (decide (dt processed <> uint16)); [reflexivity | contradiction].
  - destruct (decide (shape processed <> shape (arg_after (f rawFrame)))); [reflexivity | contradiction].
Qed.

End Filter.

(** ** [DNGBASE.__process__] *)

Section Process.
Context `{Tag.Registry, Compression.Codes, DNGVersion.Codes, SampleFormat.Codes}.
Context `{LjpegCompress, Packing, FloatCast, Layout}.

(** Whatever the tag table holds, a floating-point frame with
    [compress = true] ends in an exception, with no event at all. *)
Lemma float_compress_no_output (rawFrame : ndarray) (tags : DNGTags) (predictor : Z) :
  dt rawFrame = float32 ->
  exists e, DNGBASE.__process__ rawFrame tags true predictor = ([], Err e).
Proof.
  intros Hdt. unfold DNGBASE.__process__.
  destruct (DNGBASE.first_value (tags_get tags Tag.ImageWidth)) as [w | e]; [| eauto].
  destruct (DNGBASE.first_value (tags_get tags Tag.ImageLength)) as [l | e]; [| eauto].
  destruct (DNGBASE.first_value (tags_get tags Tag.BitsPerSample)) as [b | e]; [| eauto].
  cbn. rewrite bool_decide_eq_true_2 by assumption. cbn. eauto.
Qed.

(** C6.  For every floating-point sample array processed with
    [compress = true] (the three required tag values being readable) the
    conversion fails with [UnsupportedCompression]; no event precedes the
    failure, so the external coder was not invoked and no buffer was
    allocated, and there is no output, compressed or not. *)
Theorem float_compress_rejected (rawFrame : ndarray) (tags : DNGTags)
    (predictor width length bpp : Z) :
  dt rawFrame = float32 ->
  DNGBASE.first_value (tags_get tags Tag.ImageWidth) = Ok width ->
  DNGBASE.first_value (tags_get tags Tag.ImageLength) = Ok length ->
  DNGBASE.first_value (tags_get tags Tag.BitsPerSample) = Ok bpp ->
  DNGBASE.__process__ rawFrame tags true predictor = ([], Err UnsupportedCompression).
Proof.
  intros Hdt Hw Hl Hb. unfold DNGBASE.__process__. rewrite Hw, Hl, Hb. cbn.
  rewrite bool_decide_eq_true_2 by assumption. reflexivity.
Qed.

(** With [compress = true] and samples that are not floating-point, the
    frame goes to the coder and the coder's tile to the container. *)
Lemma process_compressed (rawFrame : ndarray) (tags : DNGTags)
    (predictor width length bpp : Z) :
  dt rawFrame <> float32 ->
  DNGBASE.first_value (tags_get tags Tag.ImageWidth) = Ok width ->
  DNGBASE.first_value (tags_get tags Tag.ImageLength) = Ok length ->
  DNGBASE.first_value (tags_get tags Tag.BitsPerSample) = Ok bpp ->
  DNGBASE.__process__ rawFrame tags true predictor
  = (let! tile := DNGBASE.encode_tile rawFrame width length bpp true predictor in
     DNGBASE.assemble tile tags Compression.LJ92 DNGVersion.V1_0 SampleFormat.Uint).
Proof.
  intros Hdt Hw Hl Hb. unfold DNGBASE.__process__. rewrite Hw, Hl, Hb. cbn [lift bind app].
  rewrite bool_decide_eq_false_2 by assumption. cbn [andb].
  destruct (DNGBASE.encode_tile _ _ _ _ _ _) as [t [tile | e]]; reflexivity.
Qed.

(** C7.  For every compressed conversion (samples not floating-point, the
    three tag values readable, the coder importable): a predictor other than
    1 or 6 fails with [InvalidPredictor] and no event; predictor 1 invokes
    the coder once, with the declared width and height; predictor 6 invokes
    it once, with the width doubled and the height halved. *)
Theorem predictor_dispatch (rawFrame : ndarray) (tags : DNGTags)
    (predictor width length bpp : Z)
    (pack16tolj : ndarray -> Z -> Z -> Z -> Z -> result (list Z)) :
  dt rawFrame <> float32 ->
  DNGBASE.first_value (tags_get tags Tag.ImageWidth) = Ok width ->
  DNGBASE.first_value (tags_get tags Tag.ImageLength) = Ok length ->
  DNGBASE.first_value (tags_get tags Tag.BitsPerSample) = Ok bpp ->
  ljpegCompress = Some pack16tolj ->
  (predictor <> 1%Z -> predictor <> 6%Z ->
   DNGBASE.__process__ rawFrame tags true predictor = ([], Err InvalidPredictor))
  /\ coder_calls (events (DNGBASE.__process__ rawFrame tags true 1))
     = [CoderCall rawFrame width length bpp 1]
  /\ coder_calls (events (DNGBASE.__process__ rawFrame tags true 6))
     = [CoderCall rawFrame (width * 2) (Z.quot length 2) bpp 6].
Proof.
  intros Hdt Hw Hl Hb Hcoder.
  rewrite !(process_compressed _ _ _ width length bpp) by assumption.
  unfold DNGBASE.encode_tile. rewrite Hcoder. cbn [Z.eqb Pos.eqb].
  repeat split.
  - intros Hnot1 Hnot6.
    rewrite (proj2 (Z.eqb_neq _ _) Hnot1), (proj2 (Z.eqb_neq _ _) Hnot6). reflexivity.
  - unfold DNGBASE.call_coder. destruct (pack16tolj rawFrame width length bpp 1%Z); reflexivity.
  - unfold DNGBASE.call_coder.
    destruct (pack16tolj rawFrame (width * 2)%Z (Z.quot length 2) bpp 6%Z); reflexivity.
Qed.

End Process.

(** ** [options], [convert] and the two checks *)

Section Options.
Context `{Tag.Registry, Compression.Codes, DNGVersion.Codes, SampleFormat.Codes}.
Context `{LjpegCompress, Packing, FloatCast, Layout, FileSystem}.

Lemma tags_condition_missing (tags : DNGTags) :
  tags_get tags Tag.ImageWidth = None \/ tags_get tags Tag.ImageLength = None
  \/ tags_get tags Tag.BitsPerSample = None ->
  exists t, DNGBASE.__tags_condition__ tags = Err (MissingRequiredTag t).
Proof.
  intros Hmiss. unfold DNGBASE.__tags_condition__.
  destruct (tags_get tags Tag.ImageWidth); [| eauto].
  destruct (tags_get tags Tag.ImageLength); [| eauto].
  destruct (tags_get tags Tag.BitsPerSample); [| eauto].
  destruct Hmiss as [? | [? | ?]]; discriminate.
Qed.

(** X13.  The tag check passes exactly on the tables that hold the three
    tags: image width, image length and bits per sample. *)
Lemma tags_condition_complete (tags : DNGTags) :
  DNGBASE.__tags_condition__ tags = Ok tt <->
  is_Some (tags_get tags Tag.ImageWidth) /\ is_Some (tags_get tags Tag.ImageLength)
  /\ is_Some (tags_get tags Tag.BitsPerSample).
Proof.
  unfold DNGBASE.__tags_condition__.
  destruct (tags_get tags Tag.ImageWidth), (tags_get tags Tag.ImageLength),
    (tags_get tags Tag.BitsPerSample); split;
    try (intros; discriminate); try (intros (Hw & Hl & Hb));
    repeat match goal with Hn : is_Some None |- _ => destruct Hn; discriminate end;
    eauto.
Qed.

(** C8.  For every tag table that lacks the image-width, the image-length
    or the bits-per-sample tag, [__tags_condition__] and with it [options]
    fail with [MissingRequiredTag], and a conversion set up with that table
    ends in the same exception without any event: no buffer was
    allocated. *)
Theorem missing_required_tag (self : Self.t) (tags : DNGTags) (path : string)
    (compress : bool) (predictor : Z) (image : ndarray) (filename : string) :
  tags_get tags Tag.ImageWidth = None \/ tags_get tags Tag.ImageLength = None
  \/ tags_get tags Tag.BitsPerSample = None ->
  exists t,
    DNGBASE.__tags_condition__ tags = Err (MissingRequiredTag t)
    /\ DNGBASE.options self tags path compress predictor = Err (MissingRequiredTag t)
    /\ options_then_convert self tags path compress predictor image filename
       = ([], Err (MissingRequiredTag t)).
Proof.
  intros Hmiss. destruct (tags_condition_missing tags Hmiss) as [t Ht].
  exists t. unfold options_then_convert, DNGBASE.options. rewrite Ht.
  repeat split; reflexivity.
Qed.

(** The camera variants check the tag table of their model the same way. *)
Lemma cam_missing_required_tag (self : Self.t) (model : BaseCameraModel.t)
    (path : string) (compress : bool) :
  Self.model self = Some model ->
  tags_get (BaseCameraModel.tags model) Tag.ImageWidth = None
  \/ tags_get (BaseCameraModel.tags model) Tag.ImageLength = None
  \/ tags_get (BaseCameraModel.tags model) Tag.BitsPerSample = None ->
  exists t,
    CAM2DNG.options self path compress = Err (MissingRequiredTag t)
    /\ PICAM2DNG.options self compress = Err (MissingRequiredTag t).
Proof.
  intros Hmodel Hmiss. destruct (tags_condition_missing _ Hmiss) as [t Ht].
  exists t. unfold PICAM2DNG.options, CAM2DNG.options. rewrite Hmodel, Ht.
  split; reflexivity.
Qed.

(** C10, as amended.  On a converter whose options are set, an input array
    of an element type its class does not accept: for [RAW2DNG] and
    [CAM2DNG] (neither uint16 nor float32) the conversion fails with
    [ValidationError] and no event, so before any allocation or coder
    invocation; for [RPICAM2DNG] and [PICAM2DNG] (not uint8) it warns and
    goes on with the array as it is. *)
Theorem dtype_check (self : Self.t) (tags : DNGTags) (image : ndarray)
    (filename : string) :
  Self.tags self = Some tags ->
  accepted_dtype (Self.cls self) (dt image) = false ->
  convert self image filename
  = match Self.cls self with
    | IsRAW2DNG | IsCAM2DNG => ([], Err ValidationError)
    | IsRPICAM2DNG | IsPICAM2DNG =>
        do! emit Warn in convert_unpacked self tags image filename
    end.
Proof.
  intros Htags Hacc. unfold convert, data_condition, unpack_pixels. rewrite Htags.
  unfold accepted_dtype in Hacc.
  destruct (Self.cls self).
  1, 2: apply orb_false_iff in Hacc as [H16 Hf%bool_decide_eq_false];
    apply bool_decide_eq_false in H16;
    unfold DNGBASE.__data_condition__;
    destruct (decide (dt image <> uint16 /\ dt image <> float32)) as [_ | Hn];
    [reflexivity | exfalso; apply Hn; split; assumption].
  all: apply bool_decide_eq_false in Hacc;
    unfold RPICAM2DNG.__data_condition__, RPICAM2DNG.__unpack_pixels__;
    destruct (decide (dt image <> uint8)); [| contradiction];
    cbn [emit bind lift app];
    destruct (convert_unpacked self tags image filename) as [t r]; reflexivity.
Qed.

End Options.

(** ** The container: what is computed and what is written *)

Section ContainerLayout.
Context `{Layout}.

(** The assumption on the entry encoder that the closed form relies on:
    every directory entry takes [entry_size] bytes. *)
Hypothesis entry_sized :
  forall (t : dngTag) (pos : nat), length (encode_entry t pos) = entry_size.

Lemma length_le_bytes (n : nat) (x : Z) : length (le_bytes n x) = n.
Proof. revert x. induction n as [| n IH]; intros x; simpl; [| rewrite IH]; reflexivity. Qed.

Lemma length_value_bytes (t : dngTag) : length (value_bytes t) = value_len t.
Proof.
  unfold value_bytes, value_len.
  induction (rawValue t) as [| v vs IH]; simpl; [lia |].
  rewrite length_app, length_le_bytes, IH. lia.
Qed.

Lemma length_overflow_bytes (t : dngTag) : length (overflow_bytes t) = overflow_len t.
Proof.
  unfold overflow_bytes, overflow_len.
  destruct (overflows t); [apply length_value_bytes | reflexivity].
Qed.

(** Setting a value of the same count leaves the encoded size alone. *)
Lemma overflow_len_setValue (t : dngTag) (value : list Z) :
  length value = length (rawValue t) ->
  overflow_len (setValue t value) = overflow_len t.
Proof.
  intros Hlen. unfold overflow_len, overflows, value_len. cbn. rewrite Hlen. reflexivity.
Qed.

Lemma length_entries (pos : nat) (tags : list dngTag) :
  length (dngIFD.entries pos tags) = length tags * entry_size.
Proof.
  revert pos. induction tags as [| t ts IH]; intros pos; simpl; [reflexivity |].
  rewrite length_app, entry_sized, IH. reflexivity.
Qed.

Lemma length_overflow (tags : list dngTag) :
  length (dngIFD.overflow tags) = sum_list_with overflow_len tags.
Proof.
  unfold dngIFD.overflow. induction tags as [| t ts IH]; simpl; [reflexivity |].
  rewrite length_app, length_overflow_bytes, IH. reflexivity.
Qed.

Lemma dataLen_split (tags : list dngTag) :
  dngIFD.dataLen tags = length tags * entry_size + sum_list_with overflow_len tags.
Proof.
  unfold dngIFD.dataLen. induction tags as [| t ts IH]; simpl; [reflexivity |].
  rewrite IH. lia.
Qed.

Lemma dataLen_ordered (tags : list dngTag) :
  dngIFD.dataLen (dngIFD.ordered tags) = dngIFD.dataLen tags.
Proof.
  unfold dngIFD.dataLen, dngIFD.ordered.
  apply sum_list_with_Permutation_proper, merge_sort_Permutation.
Qed.

(** What is written for a directory has the length computed for it,
    wherever it is placed. *)
Lemma length_raw (base : nat) (tags : list dngTag) :
  length (dngIFD.raw base tags) = dngIFD.dataLen tags.
Proof.
  unfold dngIFD.raw. rewrite length_app, length_entries, length_overflow.
  rewrite <- dataLen_split. apply dataLen_ordered.
Qed.

Lemma blit_at_end (pre : list cell) (data : list Z) (rest : list cell) :
  length data <= length rest ->
  DNG.blit (length pre) data (pre ++ rest)
  = (pre ++ map (fun b => Cell b true) data) ++ drop (length data) rest.
Proof.
  intros Hfit. unfold DNG.blit.
  rewrite take_app_length, drop_app_add', <- app_assoc by reflexivity.
  reflexivity.
Qed.

(** Contiguous writes into a buffer that is long enough lay their data
    end to end, every byte of it marked. *)
Lemma write_contiguous (ws : list (nat * list Z)) (pre rest : list cell) :
  DNG.contiguous (length pre) ws ->
  sum_list_with (fun w => length w.2) ws <= length rest ->
  foldl (fun b w => DNG.blit w.1 w.2 b) (pre ++ rest) ws
  = pre ++ map (fun b => Cell b true) (concat (map snd ws))
    ++ drop (sum_list_with (fun w => length w.2) ws) rest.
Proof.
  revert pre rest. induction ws as [| [pos data] ws IH]; intros pre rest Hc Hfit.
  - simpl. rewrite drop_0. reflexivity.
  - cbn [DNG.contiguous fst snd] in Hc. destruct Hc as [-> Hc].
    cbn [foldl map concat sum_list_with fst snd] in *.
    rewrite blit_at_end by lia.
    rewrite IH.
    + rewrite drop_drop, map_app, <- !app_assoc. reflexivity.
    + rewrite length_app, length_map. exact Hc.
    + rewrite length_drop. lia.
Qed.

Lemma directory_writes_contiguous (pos : nat) (ifds : list (list dngTag)) :
  DNG.contiguous pos (DNG.directory_writes pos ifds).
Proof.
  revert pos. induction ifds as [| tags rest IH]; intros pos; simpl; [exact I |].
  split; [reflexivity |]. rewrite length_raw. apply IH.
Qed.

Lemma directory_writes_len (pos : nat) (ifds : list (list dngTag)) :
  sum_list_with (fun w => length w.2) (DNG.directory_writes pos ifds)
  = sum_list_with dngIFD.dataLen ifds.
Proof.
  revert pos. induction ifds as [| tags rest IH]; intros pos; simpl; [reflexivity |].
  rewrite length_raw, IH. reflexivity.
Qed.

Lemma strip_writes_contiguous (i pos : nat) (strips : list (list Z)) :
  DNG.contiguous pos (DNG.strip_writes (DNG.running_offsets i pos strips) strips).
Proof.
  revert i pos. induction strips as [| s ss IH]; intros i pos; simpl; [exact I |].
  split; [reflexivity | apply IH].
Qed.

Lemma strip_writes_len (i pos : nat) (strips : list (list Z)) :
  sum_list_with (fun w => length w.2) (DNG.strip_writes (DNG.running_offsets i pos strips) strips)
  = sum_list_with length strips.
Proof.
  revert i pos. induction strips as [| s ss IH]; intros i pos; simpl; [reflexivity |].
  rewrite IH. reflexivity.
Qed.

Lemma contiguous_app (pos : nat) (ws ws' : list (nat * list Z)) :
  DNG.contiguous pos ws ->
  DNG.contiguous (pos + sum_list_with (fun w => length w.2) ws) ws' ->
  DNG.contiguous pos (ws ++ ws').
Proof.
  revert pos. induction ws as [| w ws IH]; intros pos Hc Hc'; simpl in *.
  - rewrite Nat.add_0_r in Hc'. exact Hc'.
  - destruct Hc as [Hw Hc]. split; [exact Hw |].
    apply IH; [exact Hc |]. rewrite <- Nat.add_assoc. exact Hc'.
Qed.

(** The positions of Pass 4 follow one another from the first byte of the
    buffer: no write overlaps another and none leaves a gap. *)
Lemma writes_contiguous (d : DNG.t) : DNG.contiguous 0 (DNG.writes d).
Proof.
  unfold DNG.writes. split; [reflexivity |]. cbn [snd Nat.add].
  apply contiguous_app; [apply directory_writes_contiguous |].
  rewrite directory_writes_len. apply strip_writes_contiguous.
Qed.

Lemma writes_len (d : DNG.t) :
  sum_list_with (fun w => length w.2) (DNG.writes d) = DNG.dataLen d.
Proof.
  unfold DNG.writes, DNG.dataLen, DNG.StripOffsets, DNG.directories_len.
  cbn [sum_list_with snd]. rewrite sum_list_with_app.
  rewrite directory_writes_len, strip_writes_len. lia.
Qed.

(** Pass 4 fills the buffer of Pass 2 from the first byte to the last. *)
Lemma write_materializes (d : DNG.t) :
  DNG.write d (bytearray (DNG.dataLen d))
  = map (fun b => Cell b true) (concat (map snd (DNG.writes d))).
Proof.
  unfold DNG.write.
  pose proof (write_contiguous (DNG.writes d) [] (bytearray (DNG.dataLen d))) as Hw.
  rewrite writes_len in Hw. unfold bytearray in Hw. rewrite repeat_length in Hw.
  cbn [app length] in Hw. unfold bytearray. rewrite Hw by (apply writes_contiguous || lia).
  rewrite drop_ge by (rewrite repeat_length; lia).
  apply app_nil_r.
Qed.

Lemma length_concat_writes (ws : list (nat * list Z)) :
  length (concat (map snd ws)) = sum_list_with (fun w => length w.2) ws.
Proof.
  induction ws as [| w ws IH]; simpl; [reflexivity |].
  rewrite length_app, IH. reflexivity.
Qed.

Lemma materialized_marked (data : list Z) :
  materialized (map (fun b => Cell b true) data) = length data.
Proof.
  unfold materialized. induction data as [| b data IH]; simpl; [| rewrite IH]; reflexivity.
Qed.

Lemma length_write (d : DNG.t) :
  length (DNG.write d (bytearray (DNG.dataLen d))) = DNG.dataLen d.
Proof.
  rewrite write_materializes, length_map, length_concat_writes. apply writes_len.
Qed.

(** Every byte of the buffer was stored by a write. *)
Lemma materialized_write (d : DNG.t) :
  materialized (DNG.write d (bytearray (DNG.dataLen d))) = DNG.dataLen d.
Proof.
  rewrite write_materializes, materialized_marked, length_concat_writes. apply writes_len.
Qed.

End ContainerLayout.

(** ** Lines 91-125 of [__process__] *)

Section Materialisation.
Context `{Tag.Registry, Compression.Codes, DNGVersion.Codes, SampleFormat.Codes}.
Context `{LjpegCompress, Packing, FloatCast, Layout}.

Lemma length_running_offsets (i pos : nat) (strips : list (list Z)) :
  length (DNG.running_offsets i pos strips) = length strips.
Proof.
  revert i pos. induction strips as [| s ss IH]; intros i pos; simpl;
    [| rewrite IH]; reflexivity.
Qed.

(** Pass 3 does not move anything: the patched directory is as long as
    the one with the placeholders. *)
Lemma dataLen_patch_offsets (strips : list (list Z)) (tags : DNGTags)
    (cs : Z) (bv : list Z) (sf : Z) (offsets : list (nat * nat)) :
  length offsets = length strips ->
  dngIFD.dataLen (DNGBASE.patch_offsets (DNGBASE.main_tags strips tags cs bv sf) offsets)
  = dngIFD.dataLen (DNGBASE.main_tags strips tags cs bv sf).
Proof.
  intros Hlen. unfold DNGBASE.main_tags, DNGBASE.patch_offsets, dngIFD.dataLen.
  cbn [app sum_list_with]. rewrite overflow_len_setValue; [reflexivity |].
  cbn. rewrite !length_map. exact Hlen.
Qed.

(** C2.  With an entry encoder that gives every directory entry its
    [entry_size] bytes: for every container, whatever its directories, tags
    and strips, the length computed before writing (header size + encoded
    lengths of the directories + lengths of the strips) is the number of
    bytes that [write] stores into a buffer allocated with that length, and
    the length of the buffer [write] leaves.  For every conversion, with any
    caller-supplied tags (none included), the buffer is allocated with that
    length, computed on the directory that still holds the offset
    placeholders, and written from the patched one; every byte of the
    buffer handed back was stored by a write. *)
Theorem total_length_is_materialized :
  (forall (t : dngTag) (pos : nat), length (encode_entry t pos) = entry_size) ->
  (forall d : DNG.t,
      let buf := DNG.write d (bytearray (DNG.dataLen d)) in
      DNG.dataLen d
      = length header + sum_list_with dngIFD.dataLen (DNG.IFDs d)
        + sum_list_with length (DNG.ImageDataStrips d)
      /\ materialized buf = DNG.dataLen d
      /\ length buf = DNG.dataLen d)
  /\ (forall (tile : list Z) (tags : DNGTags) (cs : Z) (bv : list Z) (sf : Z),
        let mainIFD := DNGBASE.main_tags [tile] tags cs bv sf in
        let placed := DNG.Make [mainIFD] [tile] in
        let patched :=
          DNG.Make [DNGBASE.patch_offsets mainIFD (DNG.StripOffsets placed)] [tile] in
        let totalLength := DNG.dataLen placed in
        let buf := DNG.write patched (bytearray totalLength) in
        DNGBASE.assemble tile tags cs bv sf = ([Alloc totalLength], Ok (contents buf))
        /\ totalLength = length header + dngIFD.dataLen mainIFD + length tile
        /\ materialized buf = totalLength
        /\ length (contents buf) = totalLength).
Proof.
  intros entry_sized. split.
  - intros d buf. split; [reflexivity |].
    split; [apply materialized_write | apply length_write]; exact entry_sized.
  - intros tile tags cs bv sf mainIFD placed patched totalLength buf.
    assert (Hsame : DNG.dataLen patched = totalLength).
    { unfold totalLength, DNG.dataLen, DNG.directories_len, patched, placed.
      cbn [DNG.IFDs DNG.ImageDataStrips sum_list_with].
      unfold mainIFD. rewrite dataLen_patch_offsets; [reflexivity |].
      unfold DNG.StripOffsets. apply length_running_offsets. }
    repeat split.
    + unfold totalLength, DNG.dataLen, DNG.directories_len, placed.
      cbn [DNG.IFDs DNG.ImageDataStrips sum_list_with]. lia.
    + unfold buf. rewrite <- Hsame. apply materialized_write, entry_sized.
    + unfold buf, contents. rewrite length_map, <- Hsame. apply length_write, entry_sized.
Qed.

End Materialisation.

(** ** The theorems at concrete inputs *)

Section Evaluation.
#[local] Existing Instances Sample.registry Sample.compression Sample.versions
  Sample.sample_formats Sample.coder Sample.packing Sample.float_cast Sample.layout
  Sample.file_system.

Lemma unpack10_whole_groups_witness :
  dt Sample.packed10 = uint8 /\ rectangular Sample.packed10 /\ byte_valued Sample.packed10
  /\ stored_bpp (BaseCameraModel.fmt Sample.model10) = 10%Z
  /\ ncols (cropped (BaseCameraModel.fmt Sample.model10) Sample.packed10) = 5 * 1
  /\ RPICAM2DNG.__unpack_pixels__ (Some Sample.model10) Sample.packed10
     = Ok (NdArray uint16 4 [[1; 2; 3; 4]%Z]).
Proof.
  assert (Hrect : rectangular Sample.packed10) by (repeat constructor).
  assert (Hbytes : byte_valued Sample.packed10) by (repeat constructor; lia).
  refine (conj eq_refl (conj Hrect (conj Hbytes (conj eq_refl (conj eq_refl _))))).
  exact (unpack10_whole_groups Sample.model10 Sample.packed10 1
           eq_refl Hrect Hbytes eq_refl eq_refl).
Defined.

(** The rule with the fifth byte read at offset [(byteIndex+1)*2] is not
    what the unpacker computes: the group 0, 0, 0, 1, 57 unpacks to
    1, 2, 3, 4 and that rule gives 2, 3, 0, 4. *)
Lemma unpack10_not_spec_offsets :
  RPICAM2DNG.__unpack_pixels__ (Some Sample.model10) Sample.packed10
  <> Ok (NdArray uint16 4
           (map groups10_spec
              (rows (cropped (BaseCameraModel.fmt Sample.model10) Sample.packed10)))).
Proof. vm_compute. discriminate. Qed.

Lemma unpack12_whole_groups_witness :
  dt Sample.packed12 = uint8 /\ rectangular Sample.packed12 /\ byte_valued Sample.packed12
  /\ stored_bpp (BaseCameraModel.fmt Sample.model12) = 12%Z
  /\ ncols (cropped (BaseCameraModel.fmt Sample.model12) Sample.packed12) = 3 * 1
  /\ RPICAM2DNG.__unpack_pixels__ (Some Sample.model12) Sample.packed12
     = Ok (NdArray uint16 2 [[294; 837]%Z]).
Proof.
  assert (Hrect : rectangular Sample.packed12) by (repeat constructor).
  assert (Hbytes : byte_valued Sample.packed12) by (repeat constructor; lia).
  refine (conj eq_refl (conj Hrect (conj Hbytes (conj eq_refl (conj eq_refl _))))).
  exact (unpack12_whole_groups Sample.model12 Sample.packed12 1
           eq_refl Hrect Hbytes eq_refl eq_refl).
Defined.

Lemma unpack_other_depth_returns_witness :
  stored_bpp (BaseCameraModel.fmt Sample.model14) <> 10%Z
  /\ stored_bpp (BaseCameraModel.fmt Sample.model14) <> 12%Z
  /\ stored_bpp (BaseCameraModel.fmt Sample.model14) <> 16%Z
  /\ RPICAM2DNG.__unpack_pixels__ (Some Sample.model14) Sample.bytes8
     = Ok (NdArray uint8 7 [[1; 2; 3; 4; 228; 255; 7]%Z]).
Proof.
  assert (H10 : stored_bpp (BaseCameraModel.fmt Sample.model14) <> 10%Z) by (vm_compute; discriminate).
  assert (H12 : stored_bpp (BaseCameraModel.fmt Sample.model14) <> 12%Z) by (vm_compute; discriminate).
  assert (H16 : stored_bpp (BaseCameraModel.fmt Sample.model14) <> 16%Z) by (vm_compute; discriminate).
  refine (conj H10 (conj H12 (conj H16 _))).
  exact (unpack_other_depth_returns Sample.model14 Sample.bytes8 H10 H12 H16).
Defined.

(** A stored depth of 14 bits: the bytes come back cropped, no exception. *)
Lemma unpack_depth14_returns :
  stored_bpp (BaseCameraModel.fmt Sample.model14) = 14%Z
  /\ RPICAM2DNG.__unpack_pixels__ (Some Sample.model14) Sample.bytes8
     = Ok (NdArray uint8 7 [[1; 2; 3; 4; 228; 255; 7]%Z]).
Proof. split; reflexivity. Qed.

Lemma float_compress_rejected_witness :
  dt Sample.frame_f32 = float32
  /\ DNGBASE.first_value (tags_get Sample.tags_4x1 Tag.ImageWidth) = Ok 4%Z
  /\ DNGBASE.first_value (tags_get Sample.tags_4x1 Tag.ImageLength) = Ok 1%Z
  /\ DNGBASE.first_value (tags_get Sample.tags_4x1 Tag.BitsPerSample) = Ok 16%Z
  /\ DNGBASE.__process__ Sample.frame_f32 Sample.tags_4x1 true 6
     = ([], Err UnsupportedCompression).
Proof.
  refine (conj eq_refl (conj eq_refl (conj eq_refl (conj eq_refl _)))).
  exact (float_compress_rejected Sample.frame_f32 Sample.tags_4x1 6 4 1 16
           eq_refl eq_refl eq_refl eq_refl).
Defined.

Lemma predictor_dispatch_witness :
  dt Sample.frame_u16 <> float32
  /\ (7 <> 1)%Z /\ (7 <> 6)%Z
  /\ DNGBASE.__process__ Sample.frame_u16 Sample.tags_4x1 true 7 = ([], Err InvalidPredictor)
  /\ coder_calls (events (DNGBASE.__process__ Sample.frame_u16 Sample.tags_4x1 true 1))
     = [CoderCall Sample.frame_u16 4 1 16 1]
  /\ coder_calls (events (DNGBASE.__process__ Sample.frame_u16 Sample.tags_4x1 true 6))
     = [CoderCall Sample.frame_u16 8 0 16 6].
Proof.
  assert (Hdt : dt Sample.frame_u16 <> float32) by discriminate.
  assert (Hw : DNGBASE.first_value (tags_get Sample.tags_4x1 Tag.ImageWidth) = Ok 4%Z)
    by reflexivity.
  assert (Hl : DNGBASE.first_value (tags_get Sample.tags_4x1 Tag.ImageLength) = Ok 1%Z)
    by reflexivity.
  assert (Hb : DNGBASE.first_value (tags_get Sample.tags_4x1 Tag.BitsPerSample) = Ok 16%Z)
    by reflexivity.
  assert (Hc : ljpegCompress = Some Sample.frame_bytes) by reflexivity.
  destruct (predictor_dispatch Sample.frame_u16 Sample.tags_4x1 7 4 1 16
              Sample.frame_bytes Hdt Hw Hl Hb Hc) as (Hbad & Hone & Hsix).
  refine (conj Hdt (conj _ (conj _ (conj (Hbad _ _) (conj Hone Hsix))))); lia.
Defined.

Lemma missing_required_tag_witness :
  (tags_get Sample.tags_no_length Tag.ImageWidth = None
   \/ tags_get Sample.tags_no_length Tag.ImageLength = None
   \/ tags_get Sample.tags_no_length Tag.BitsPerSample = None)
  /\ exists t,
      DNGBASE.__tags_condition__ Sample.tags_no_length = Err (MissingRequiredTag t)
      /\ DNGBASE.options Sample.raw2dng Sample.tags_no_length "out" false 6
         = Err (MissingRequiredTag t)
      /\ options_then_convert Sample.raw2dng Sample.tags_no_length "out" false 6
           Sample.frame_u16 "frame"
         = ([], Err (MissingRequiredTag t)).
Proof.
  assert (Hmiss : tags_get Sample.tags_no_length Tag.ImageWidth = None
                  \/ tags_get Sample.tags_no_length Tag.ImageLength = None
                  \/ tags_get Sample.tags_no_length Tag.BitsPerSample = None)
    by (right; left; vm_compute; reflexivity).
  split; [exact Hmiss |].
  exact (missing_required_tag Sample.raw2dng Sample.tags_no_length "out" false 6
           Sample.frame_u16 "frame" Hmiss).
Defined.

Lemma filter_contract_witness :
  returned (Sample.drop_column Sample.frame_u16)
  = Ok (PyArray (NdArray uint16 3 [[1; 2; 3]%Z]))
  /\ DNGBASE.__filter__ Sample.frame_u16 (Some Sample.drop_column)
     = (Sample.frame_u16, Err FilterShapeError)
  /\ DNGBASE.__filter__ Sample.frame_u16 None = (Sample.frame_u16, Ok Sample.frame_u16).
Proof.
  split; [reflexivity |].
  refine (filter_contract Sample.frame_u16 Sample.drop_column
            (NdArray uint16 3 [[1; 2; 3]%Z]) eq_refl _).
  left. vm_compute. discriminate.
Defined.

(** A hook that turns floating-point samples into unsigned 16-bit ones of
    the same shape is accepted, though the element type differs from the
    input's. *)
Lemma filter_accepts_other_type :
  dt Sample.frame_u16 <> dt Sample.frame_f32
  /\ returned (Sample.to_u16 Sample.frame_f32) = Ok (PyArray Sample.frame_u16)
  /\ DNGBASE.__filter__ Sample.frame_f32 (Some Sample.to_u16)
     = (Sample.frame_f32, Ok Sample.frame_u16).
Proof. split; [discriminate |]. split; reflexivity. Qed.

Lemma dtype_check_witness :
  Self.tags Sample.raw2dng_ready = Some Sample.tags_4x1
  /\ accepted_dtype (Self.cls Sample.raw2dng_ready) (dt Sample.packed10) = false
  /\ convert Sample.raw2dng_ready Sample.packed10 "frame" = ([], Err ValidationError).
Proof.
  refine (conj eq_refl (conj eq_refl _)).
  exact (dtype_check Sample.raw2dng_ready Sample.tags_4x1 Sample.packed10 "frame"
           eq_refl eq_refl).
Defined.

(** A [RPICAM2DNG] converter given samples of 16 bits warns and goes on:
    as its [options] leaves it, to the missing [predictor] attribute; with
    the attribute assigned, to the finished buffer. *)
Lemma rpicam_warns_and_converts :
  accepted_dtype IsRPICAM2DNG (dt Sample.frame_u16) = false
  /\ CAM2DNG.options (DNGBASE.__init__ IsRPICAM2DNG (Some Sample.model10)) "out" false
     = Ok Sample.rpicam_after_options
  /\ convert Sample.rpicam_after_options Sample.frame_u16 "" = ([Warn], Err AttributeError)
  /\ events (convert Sample.rpicam_with_predictor Sample.frame_u16 "") = [Warn; Alloc 153]
  /\ is_ok (outcome (convert Sample.rpicam_with_predictor Sample.frame_u16 "")) = true.
Proof. repeat split; vm_compute; reflexivity. Qed.

End Evaluation.

(** ** More on the unpacker *)

Section UnpackMore.
Local Open Scope Z_scope.

Lemma strided_len_split (b s k r : nat) :
  (b < s)%nat -> (r < s)%nat ->
  strided_len b s (s * k + r) = (k + (if b <? r then 1 else 0))%nat.
Proof.
  intros Hb Hr. unfold strided_len.
  destruct (Nat.ltb_spec b r) as [Hlt | Hge].
  - destruct (Nat.leb_spec (s * k + r) b) as [Hle | _]; [nia |].
    symmetry. apply (Nat.div_unique _ _ _ (r - b - 1)%nat); nia.
  - destruct (Nat.leb_spec (s * k + r) b) as [Hle | Hgt].
    + destruct k; [reflexivity | nia].
    + symmetry. apply (Nat.div_unique _ _ _ (s - 1 - (b - r))%nat); nia.
Qed.

(** A value or-ed below a left shift adds to it. *)
Lemma lor_shiftl_low (b x k : Z) :
  0 <= k -> 0 <= x < 2 ^ k -> Z.lor (Z.shiftl b k) x = b * 2 ^ k + x.
Proof.
  intros Hk Hx.
  assert (Hland : Z.land (Z.shiftl b k) x = 0).
  { apply Z.bits_inj'. intros n Hn. rewrite Z.land_spec, Z.bits_0.
    destruct (Z.lt_ge_cases n k) as [Hlt | Hge].
    - rewrite Z.shiftl_spec_low by lia. reflexivity.
    - rewrite <- (Z.mod_small x (2 ^ k)) by lia.
      rewrite Z.mod_pow2_bits_high by lia. apply andb_false_r. }
  rewrite <- Z.lxor_lor, <- Z.add_nocarry_lxor by assumption.
  rewrite Z.shiftl_mul_pow2 by lia. reflexivity.
Qed.

Lemma low2_range (v n : Z) : 0 <= n -> 0 <= Z.land (Z.shiftr v n) 3 < 4.
Proof.
  intros Hn. change 3 with (Z.ones 2). rewrite Z.land_ones by lia.
  apply Z.mod_pos_bound. lia.
Qed.

Lemma sample10_value (i b b4 : Z) :
  0 <= i -> sample10 i b b4 = b * 4 + (b4 / 2 ^ (2 * i)) mod 4.
Proof.
  intros Hi. unfold sample10.
  rewrite (lor_shiftl_low b _ 2) by (try apply low2_range; lia).
  change 3 with (Z.ones 2). rewrite Z.land_ones, Z.shiftr_div_pow2 by lia.
  reflexivity.
Qed.

Lemma sample12_value (b x : Z) :
  Z.lor (Z.shiftl b 4) (Z.land x 15) = b * 16 + x mod 16.
Proof.
  rewrite (lor_shiftl_low b _ 4) by (try apply land_15_range; lia).
  change 15 with (Z.ones 4). rewrite Z.land_ones by lia. reflexivity.
Qed.

End UnpackMore.

Section UnpackWhole.
Local Open Scope Z_scope.


Lemma unpack_stored_10 (fmt : fmt_dict) (data : ndarray) (k : nat) :
  rectangular data -> byte_valued data -> stored_bpp fmt = 10 ->
  ncols (cropped fmt data) = (5 * k)%nat ->
  unpack_stored fmt data
  = Ok (NdArray uint16 (4 * k) (map groups10 (rows (cropped fmt data)))).
Proof.
  intros Hrect Hbytes Hbpp Hcols. unfold unpack_stored.
  rewrite Hbpp. cbn [Z.eqb Pos.eqb].
  unfold unpack10. rewrite Hcols. cbn [seq forallb].
  rewrite !strided_len_whole by lia.
  unfold broadcastable. rewrite Nat.eqb_refl. cbn [orb andb].
  do 2 f_equal; [lia |].
  apply rows_whole; auto using cropped_rectangular, cropped_byte_valued.
  intros r Hr Hb. apply (unpack10_row_groups k); [lia | exact Hb].
Qed.

Lemma unpack_stored_12 (fmt : fmt_dict) (data : ndarray) (k : nat) :
  rectangular data -> byte_valued data -> stored_bpp fmt = 12 ->
  ncols (cropped fmt data) = (3 * k)%nat ->
  unpack_stored fmt data
  = Ok (NdArray uint16 (2 * k) (map groups12 (rows (cropped fmt data)))).
Proof.
  intros Hrect Hbytes Hbpp Hcols. unfold unpack_stored.
  rewrite Hbpp. cbn [Z.eqb Pos.eqb].
  unfold unpack12. rewrite Hcols.
  replace (2 * (3 * k) / 3)%nat with (2 * k)%nat
    by (apply (Nat.div_unique _ _ _ 0%nat); lia).
  rewrite !strided_len_whole by lia.
  unfold bcast_shape, broadcastable. rewrite !Nat.eqb_refl. cbn [orb negb].
  do 2 f_equal.
  apply rows_whole; auto using cropped_rectangular, cropped_byte_valued.
  intros r Hr Hb. apply unpack12_row_groups; [lia | exact Hb].
Qed.

Lemma unpack_pixels_bytes (model : BaseCameraModel.t) (data : ndarray) :
  dt data = uint8 ->
  RPICAM2DNG.__unpack_pixels__ (Some model) data
  = unpack_stored (BaseCameraModel.fmt model) data.
Proof.
  intros Hdt. unfold RPICAM2DNG.__unpack_pixels__.
  destruct (decide (dt data <> uint8)); [contradiction | reflexivity].
Qed.

(** *** Ranges *)

Lemma groups10_range (k : nat) (r : list Z) :
  length r = (5 * k)%nat -> Forall (fun b => 0 <= b < 256) r ->
  Forall (fun s => 0 <= s < 1024) (groups10 r).
Proof.
  revert r. induction k as [| k IH]; intros r Hr Hb.
  - destruct r; [constructor | simpl in Hr; lia].
  - destruct (group5_inv k r Hr) as (a & b & c & d & e & r' & -> & Hr').
    repeat match goal with H : Forall _ (_ :: _) |- _ => apply Forall_cons in H as [? H] end.
    cbn [groups10]. rewrite !sample10_value by lia.
    repeat (apply Forall_cons; split;
            [match goal with |- context [(?x / ?y) mod 4] =>
               pose proof (Z.mod_pos_bound (x / y) 4 ltac:(lia)) end; lia |]).
    apply IH; assumption.
Qed.

Lemma groups12_range (k : nat) (r : list Z) :
  length r = (3 * k)%nat -> Forall (fun b => 0 <= b < 256) r ->
  Forall (fun s => 0 <= s < 4096) (groups12 r).
Proof.
  revert r. induction k as [| k IH]; intros r Hr Hb.
  - destruct r; [constructor | simpl in Hr; lia].
  - destruct (group3_inv k r Hr) as (a & b & c & r' & -> & Hr').
    repeat match goal with H : Forall _ (_ :: _) |- _ => apply Forall_cons in H as [? H] end.
    cbn [groups12].
    pose proof (land_15_range c). pose proof (land_15_range (Z.shiftr c 4)).
    rewrite !(lor_shiftl_low _ _ 4) by lia.
    repeat (apply Forall_cons; split; [change (2 ^ 4) with 16; lia |]).
    apply IH; assumption.
Qed.

End UnpackWhole.

Section UnpackProperties.
Local Open Scope Z_scope.

(** X4.  Ten-bit samples: every sample the 10-bit branch returns for a
    buffer of whole groups lies in [0, 1024). *)
Theorem unpack10_samples_below_1024 (model : BaseCameraModel.t) (data : ndarray) (k : nat) :
  let fmt := BaseCameraModel.fmt model in
  dt data = uint8 -> rectangular data -> byte_valued data ->
  stored_bpp fmt = 10 ->
  ncols (cropped fmt data) = (5 * k)%nat ->
  exists a,
    RPICAM2DNG.__unpack_pixels__ (Some model) data = Ok a
    /\ dt a = uint16
    /\ Forall (Forall (fun s => 0 <= s < 1024)) (rows a).
Proof.
  intros fmt Hdt Hrect Hbytes Hbpp Hcols.
  rewrite unpack_pixels_bytes by assumption. fold fmt.
  rewrite (unpack_stored_10 fmt data k) by assumption.
  eexists. split; [reflexivity |]. split; [reflexivity |].
  cbn [rows]. apply Forall_map.
  pose proof (cropped_rectangular fmt data Hrect) as Hr.
  pose proof (cropped_byte_valued fmt data Hbytes) as Hb.
  unfold rectangular, byte_valued in *. rewrite Forall_forall in *.
  intros r Hin. apply (groups10_range k); [rewrite (Hr r Hin); lia | auto].
Qed.

(** X5.  Twelve-bit samples lie in [0, 4096). *)
Theorem unpack12_samples_below_4096 (model : BaseCameraModel.t) (data : ndarray) (k : nat) :
  let fmt := BaseCameraModel.fmt model in
  dt data = uint8 -> rectangular data -> byte_valued data ->
  stored_bpp fmt = 12 ->
  ncols (cropped fmt data) = (3 * k)%nat ->
  exists a,
    RPICAM2DNG.__unpack_pixels__ (Some model) data = Ok a
    /\ dt a = uint16
    /\ Forall (Forall (fun s => 0 <= s < 4096)) (rows a).
Proof.
  intros fmt Hdt Hrect Hbytes Hbpp Hcols.
  rewrite unpack_pixels_bytes by assumption. fold fmt.
  rewrite (unpack_stored_12 fmt data k) by assumption.
  eexists. split; [reflexivity |]. split; [reflexivity |].
  cbn [rows]. apply Forall_map.
  pose proof (cropped_rectangular fmt data Hrect) as Hr.
  pose proof (cropped_byte_valued fmt data Hbytes) as Hb.
  unfold rectangular, byte_valued in *. rewrite Forall_forall in *.
  intros r Hin. apply (groups12_range k); [rewrite (Hr r Hin); lia | auto].
Qed.

(** *** Nothing is lost *)

Lemma groups10_inj (k : nat) (r r' : list Z) :
  length r = (5 * k)%nat -> length r' = (5 * k)%nat ->
  Forall (fun b => 0 <= b < 256) r -> Forall (fun b => 0 <= b < 256) r' ->
  groups10 r = groups10 r' -> r = r'.
Proof.
  revert r r'. induction k as [| k IH]; intros r r' Hr Hr' Hb Hb' Heq.
  - destruct r, r'; simpl in *; try lia. reflexivity.
  - destruct (group5_inv k r Hr) as (a & b & c & d & e & t & -> & Ht).
    destruct (group5_inv k r' Hr') as (a' & b' & c' & d' & e' & t' & -> & Ht').
    repeat match goal with H : Forall _ (_ :: _) |- _ => apply Forall_cons in H as [? H] end.
    cbn [groups10] in Heq. rewrite !sample10_value in Heq by lia.
    injection Heq as Hs0 Hs1 Hs2 Hs3 Hrest.
    change (2 ^ (2 * 0)) with 1 in *. change (2 ^ (2 * 1)) with 4 in *.
    change (2 ^ (2 * 2)) with 16 in *. change (2 ^ (2 * 3)) with 64 in *.
    rewrite (IH t t') by assumption.
    assert (a = a' /\ b = b' /\ c = c' /\ d = d' /\ e = e') as (-> & -> & -> & -> & ->)
      by (Z.div_mod_to_equations; lia).
    reflexivity.
Qed.

Lemma groups12_inj (k : nat) (r r' : list Z) :
  length r = (3 * k)%nat -> length r' = (3 * k)%nat ->
  Forall (fun b => 0 <= b < 256) r -> Forall (fun b => 0 <= b < 256) r' ->
  groups12 r = groups12 r' -> r = r'.
Proof.
  revert r r'. induction k as [| k IH]; intros r r' Hr Hr' Hb Hb' Heq.
  - destruct r, r'; simpl in *; try lia. reflexivity.
  - destruct (group3_inv k r Hr) as (a & b & c & t & -> & Ht).
    destruct (group3_inv k r' Hr') as (a' & b' & c' & t' & -> & Ht').
    repeat match goal with H : Forall _ (_ :: _) |- _ => apply Forall_cons in H as [? H] end.
    cbn [groups12] in Heq. rewrite !sample12_value in Heq.
    rewrite !Z.shiftr_div_pow2 in Heq by lia. change (2 ^ 4) with 16 in Heq.
    injection Heq as Hs0 Hs1 Hrest.
    rewrite (IH t t') by assumption.
    assert (a = a' /\ b = b' /\ c = c') as (-> & -> & ->)
      by (Z.div_mod_to_equations; lia).
    reflexivity.
Qed.

Lemma map_inj_on {A B} (P : A -> Prop) (f : A -> B) (l l' : list A) :
  (forall x y, P x -> P y -> f x = f y -> x = y) ->
  Forall P l -> Forall P l' -> map f l = map f l' -> l = l'.
Proof.
  intros Hinj. revert l'. induction l as [| x l IH]; intros [| y l'] Hl Hl' Heq;
    try discriminate; [reflexivity |].
  apply Forall_cons in Hl as [Hx Hl]. apply Forall_cons in Hl' as [Hy Hl'].
  injection Heq as Hxy Heq. f_equal; [apply Hinj; assumption | apply IH; assumption].
Qed.

End UnpackProperties.

Section Lossless.
Local Open Scope Z_scope.

Lemma ndarray_ext (a b : ndarray) :
  dt a = dt b -> ncols a = ncols b -> rows a = rows b -> a = b.
Proof. destruct a, b. cbn. intros -> -> ->. reflexivity. Qed.

Lemma dt_cropped (fmt : fmt_dict) (data : ndarray) : dt (cropped fmt data) = dt data.
Proof. unfold cropped. destruct (default _ _). reflexivity. Qed.

Lemma whole_byte_rows (a : ndarray) (n : nat) :
  rectangular a -> byte_valued a -> ncols a = n ->
  Forall (fun r => length r = n /\ Forall (fun b => 0 <= b < 256) r) (rows a).
Proof.
  unfold rectangular, byte_valued. intros Hr Hb <-.
  rewrite Forall_forall in *. intros r Hin. split; auto.
Qed.

(** X6.  The 10-bit branch loses nothing: two buffers of whole groups that
    unpack to the same samples hold the same bytes in the cropped area. *)
Theorem unpack10_lossless (model : BaseCameraModel.t) (data data' : ndarray) (k : nat) :
  let fmt := BaseCameraModel.fmt model in
  dt data = uint8 -> dt data' = uint8 ->
  rectangular data -> rectangular data' ->
  byte_valued data -> byte_valued data' ->
  stored_bpp fmt = 10 ->
  ncols (cropped fmt data) = (5 * k)%nat -> ncols (cropped fmt data') = (5 * k)%nat ->
  RPICAM2DNG.__unpack_pixels__ (Some model) data
  = RPICAM2DNG.__unpack_pixels__ (Some model) data' ->
  cropped fmt data = cropped fmt data'.
Proof.
  intros fmt Hdt Hdt' Hrect Hrect' Hbytes Hbytes' Hbpp Hcols Hcols' Heq.
  rewrite !unpack_pixels_bytes in Heq by assumption. fold fmt in Heq.
  rewrite (unpack_stored_10 fmt data k), (unpack_stored_10 fmt data' k) in Heq by assumption.
  injection Heq as Hrows.
  apply ndarray_ext; [rewrite !dt_cropped; congruence | congruence |].
  apply (map_inj_on (fun r => length r = (5 * k)%nat /\ Forall (fun b => 0 <= b < 256) r) groups10);
    [| | | exact Hrows].
  - intros r r' [Hr Hb] [Hr' Hb']. apply (groups10_inj k); assumption.
  - apply whole_byte_rows; auto using cropped_rectangular, cropped_byte_valued.
  - apply whole_byte_rows; auto using cropped_rectangular, cropped_byte_valued.
Qed.

(** X7.  The 12-bit branch loses nothing either. *)
Theorem unpack12_lossless (model : BaseCameraModel.t) (data data' : ndarray) (k : nat) :
  let fmt := BaseCameraModel.fmt model in
  dt data = uint8 -> dt data' = uint8 ->
  rectangular data -> rectangular data' ->
  byte_valued data -> byte_valued data' ->
  stored_bpp fmt = 12 ->
  ncols (cropped fmt data) = (3 * k)%nat -> ncols (cropped fmt data') = (3 * k)%nat ->
  RPICAM2DNG.__unpack_pixels__ (Some model) data
  = RPICAM2DNG.__unpack_pixels__ (Some model) data' ->
  cropped fmt data = cropped fmt data'.
Proof.
  intros fmt Hdt Hdt' Hrect Hrect' Hbytes Hbytes' Hbpp Hcols Hcols' Heq.
  rewrite !unpack_pixels_bytes in Heq by assumption. fold fmt in Heq.
  rewrite (unpack_stored_12 fmt data k), (unpack_stored_12 fmt data' k) in Heq by assumption.
  injection Heq as Hrows.
  apply ndarray_ext; [rewrite !dt_cropped; congruence | congruence |].
  apply (map_inj_on (fun r => length r = (3 * k)%nat /\ Forall (fun b => 0 <= b < 256) r) groups12);
    [| | | exact Hrows].
  - intros r r' [Hr Hb] [Hr' Hb']. apply (groups12_inj k); assumption.
  - apply whole_byte_rows; auto using cropped_rectangular, cropped_byte_valued.
  - apply whole_byte_rows; auto using cropped_rectangular, cropped_byte_valued.
Qed.

End Lossless.

Section UnpackEdges.

Lemma split_by (s n : nat) : s <> 0 -> exists k r, n = s * k + r /\ r < s.
Proof.
  intros Hs. exists (n / s), (n mod s). split.
  - apply Nat.div_mod_eq.
  - apply Nat.mod_upper_bound, Hs.
Qed.

Lemma mod_split (s k r : nat) : r < s -> (s * k + r) mod s = r.
Proof.
  intros Hr. rewrite Nat.add_comm, Nat.mul_comm, Nat.Div0.mod_add.
  apply Nat.mod_small, Hr.
Qed.

Lemma unpack10_ok_iff (a : ndarray) :
  is_ok (unpack10 a) = true <-> ncols a mod 5 = 0 \/ 6 <= ncols a <= 9.
Proof.
  unfold unpack10.
  destruct (split_by 5 (ncols a)) as (k & r & -> & Hr); [lia |].
  rewrite mod_split by exact Hr.
  cbn [seq forallb]. rewrite !(strided_len_split _ 5) by lia.
  unfold broadcastable.
  destruct r as [| [| [| [| [| r]]]]]; try lia; cbn [Nat.ltb Nat.leb];
    rewrite ?Nat.add_0_r; eqb_cases; cbn [orb andb is_ok]; split;
    try (intros; discriminate); try (intros; reflexivity); intros; lia.
Qed.

Lemma unpack12_ok_iff (a : ndarray) :
  is_ok (unpack12 a) = true <-> ncols a mod 3 = 0 \/ ncols a = 1.
Proof.
  unfold unpack12.
  destruct (split_by 3 (ncols a)) as (k & r & -> & Hr); [lia |].
  rewrite mod_split by exact Hr.
  rewrite !(strided_len_split _ 3) by lia.
  destruct r as [| [| [| r]]]; try lia; cbn [Nat.ltb Nat.leb]; rewrite ?Nat.add_0_r.
  - replace (2 * (3 * k) / 3) with (2 * k) by (apply (Nat.div_unique _ _ _ 0); lia).
    replace (2 * k) with (2 * k + 0) by lia.
    rewrite !(strided_len_split _ 2) by lia. cbn [Nat.ltb Nat.leb]. rewrite Nat.add_0_r.
    unfold bcast_shape, broadcastable. rewrite !Nat.eqb_refl. cbn. split; [lia | reflexivity].
  - replace (2 * (3 * k + 1) / 3) with (2 * k) by (apply (Nat.div_unique _ _ _ 2); lia).
    replace (2 * k) with (2 * k + 0) by lia.
    rewrite !(strided_len_split _ 2) by lia. cbn [Nat.ltb Nat.leb]. rewrite Nat.add_0_r.
    unfold bcast_shape, broadcastable.
    eqb_cases; cbn [orb negb is_ok]; eqb_cases; cbn [orb negb is_ok]; split;
      try (intros; discriminate); try (intros; reflexivity); intros; lia.
  - replace (2 * (3 * k + 2) / 3) with (2 * k + 1) by (apply (Nat.div_unique _ _ _ 1); lia).
    rewrite !(strided_len_split _ 2) by lia. cbn [Nat.ltb Nat.leb]. rewrite ?Nat.add_0_r.
    unfold bcast_shape, broadcastable.
    eqb_cases; cbn [orb negb is_ok]; eqb_cases; cbn [orb negb is_ok]; split;
      try (intros; discriminate); try (intros; reflexivity); intros; lia.
Qed.

End UnpackEdges.

Section UnpackEdgeTheorems.
Local Open Scope Z_scope.

(** X2.  The 10-bit branch returns a result exactly when the cropped rows
    are whole 5-byte groups or 6 to 9 bytes wide (where numpy broadcasts the
    single fifth byte); for every other width the in-place or of line 203
    raises, and what it raises is numpy's [ValueError]. *)
Theorem unpack10_succeeds_iff (model : BaseCameraModel.t) (data : ndarray) :
  let fmt := BaseCameraModel.fmt model in
  let n := ncols (cropped fmt data) in
  dt data = uint8 -> stored_bpp fmt = 10 ->
  (is_ok (RPICAM2DNG.__unpack_pixels__ (Some model) data) = true
   <-> (n mod 5 = 0 \/ 6 <= n <= 9)%nat)
  /\ (forall e : error,
        RPICAM2DNG.__unpack_pixels__ (Some model) data = Err e -> e = NumpyValueError).
Proof.
  intros fmt n Hdt Hbpp. rewrite unpack_pixels_bytes by assumption.
  unfold unpack_stored. fold fmt. rewrite Hbpp. cbn [Z.eqb Pos.eqb].
  split; [apply unpack10_ok_iff |].
  intros e. unfold unpack10. destruct (forallb _ _); congruence.
Qed.

(** X3.  The 12-bit branch returns a result exactly when the cropped rows
    are whole 3-byte groups, or one byte wide (the result then has no
    column); for every other width an assignment of lines 209-210 raises,
    and what it raises is numpy's [ValueError]. *)
Theorem unpack12_succeeds_iff (model : BaseCameraModel.t) (data : ndarray) :
  let fmt := BaseCameraModel.fmt model in
  let n := ncols (cropped fmt data) in
  dt data = uint8 -> stored_bpp fmt = 12 ->
  (is_ok (RPICAM2DNG.__unpack_pixels__ (Some model) data) = true
   <-> (n mod 3 = 0 \/ n = 1)%nat)
  /\ (forall e : error,
        RPICAM2DNG.__unpack_pixels__ (Some model) data = Err e -> e = NumpyValueError)
  /\ (n = 1%nat ->
      exists a : ndarray,
        RPICAM2DNG.__unpack_pixels__ (Some model) data = Ok a /\ ncols a = 0%nat).
Proof.
  intros fmt n Hdt Hbpp. rewrite unpack_pixels_bytes by assumption.
  unfold unpack_stored. fold fmt. rewrite Hbpp. cbn [Z.eqb Pos.eqb].
  split; [apply unpack12_ok_iff |]. split.
  - intros e. unfold unpack12.
    repeat match goal with
           | |- context [match bcast_shape ?x ?y with _ => _ end] =>
               destruct (bcast_shape x y)
           | |- context [if negb ?b then _ else _] => destruct b; cbn [negb]
           end; congruence.
  - intros Hone. unfold unpack12. cbv zeta.
    change (ncols (cropped fmt data)) with n. rewrite Hone. cbn. eauto.
Qed.

(** *** The 16-bit pass-through *)

Lemma le_bytes_1_byte (b : Z) : 0 <= b < 256 -> le_bytes 1 b = [b].
Proof. intros Hb. cbn. rewrite Z.mod_small by lia. reflexivity. Qed.

Lemma le_bytes_2_pair (lo hi : Z) :
  0 <= lo < 256 -> 0 <= hi < 256 -> le_bytes 2 (lo + 256 * hi) = [lo; hi].
Proof.
  intros Hlo Hhi. cbn [le_bytes]. f_equal; [| f_equal].
  - Z.div_mod_to_equations; lia.
  - Z.div_mod_to_equations; lia.
Qed.

Lemma bytes_of_bytes (r : list Z) :
  Forall (fun b => 0 <= b < 256) r -> concat (map (le_bytes 1) r) = r.
Proof.
  induction 1 as [| b r Hb Hr IH]; [reflexivity |].
  cbn [map concat]. rewrite le_bytes_1_byte, IH by assumption. reflexivity.
Qed.

Lemma pair_bytes_back (k : nat) (r : list Z) :
  length r = (2 * k)%nat -> Forall (fun b => 0 <= b < 256) r ->
  concat (map (le_bytes 2) (pair_bytes r)) = r.
Proof.
  revert r. induction k as [| k IH]; intros r Hr Hb.
  - destruct r; [reflexivity | simpl in Hr; lia].
  - destruct r as [| lo [| hi r]]; simpl in Hr; try lia.
    apply Forall_cons in Hb as [Hlo Hb]. apply Forall_cons in Hb as [Hhi Hb].
    cbn [pair_bytes map concat]. rewrite le_bytes_2_pair by assumption.
    rewrite IH by (assumption || lia). reflexivity.
Qed.

(** X1.  A capture format that is not CSI2P-packed is read as 16-bit
    samples without arithmetic: an odd number of cropped bytes per row
    raises, an even number gives half as many uint16 columns whose
    serialisation is byte for byte the cropped input. *)
Theorem unpack16_reinterprets (model : BaseCameraModel.t) (data : ndarray) :
  let fmt := BaseCameraModel.fmt model in
  let kept := cropped fmt data in
  dt data = uint8 -> rectangular data -> byte_valued data ->
  stored_bpp fmt = 16 ->
  if Nat.even (ncols kept)
  then exists a,
      RPICAM2DNG.__unpack_pixels__ (Some model) data = Ok a
      /\ dt a = uint16 /\ nrows a = nrows kept /\ ncols a = (ncols kept / 2)%nat
      /\ tobytes a = tobytes kept
  else RPICAM2DNG.__unpack_pixels__ (Some model) data = Err NumpyValueError.
Proof.
  intros fmt kept Hdt Hrect Hbytes Hbpp. rewrite unpack_pixels_bytes by assumption.
  unfold unpack_stored. fold fmt. rewrite Hbpp. cbn [Z.eqb Pos.eqb]. fold kept.
  unfold view_uint16. destruct (Nat.even (ncols kept)) eqn:Heven; [| reflexivity].
  eexists. split; [reflexivity |]. cbn [dt ncols rows nrows].
  split; [reflexivity |]. split; [unfold nrows; apply length_map |].
  split; [reflexivity |].
  unfold tobytes. cbn [dt rows itemsize]. rewrite map_map.
  assert (Hdtk : dt kept = uint8) by (unfold kept; rewrite dt_cropped; exact Hdt).
  rewrite Hdtk. cbn [itemsize]. f_equal.
  apply Nat.even_spec in Heven as [k Hk].
  pose proof (whole_byte_rows kept (2 * k)
                (cropped_rectangular fmt data Hrect)
                (cropped_byte_valued fmt data Hbytes) Hk) as Hrows.
  apply map_ext_Forall. eapply Forall_impl; [exact Hrows |].
  intros r [Hr Hb]. cbn beta.
  rewrite (pair_bytes_back k), bytes_of_bytes by assumption. reflexivity.
Qed.

End UnpackEdgeTheorems.

Section UnpackShape.
Local Open Scope Z_scope.

Lemma length_groups10 (k : nat) (r : list Z) :
  length r = (5 * k)%nat -> length (groups10 r) = (4 * k)%nat.
Proof.
  revert r. induction k as [| k IH]; intros r Hr.
  - destruct r; [reflexivity | simpl in Hr; lia].
  - destruct (group5_inv k r Hr) as (a & b & c & d & e & r' & -> & Hr').
    cbn [groups10 length]. rewrite (IH r' Hr'). lia.
Qed.

Lemma length_groups12 (k : nat) (r : list Z) :
  length r = (3 * k)%nat -> length (groups12 r) = (2 * k)%nat.
Proof.
  revert r. induction k as [| k IH]; intros r Hr.
  - destruct r; [reflexivity | simpl in Hr; lia].
  - destruct (group3_inv k r Hr) as (a & b & c & r' & -> & Hr').
    cbn [groups12 length]. rewrite (IH r' Hr'). lia.
Qed.

Lemma length_pair_bytes (k : nat) (r : list Z) :
  length r = (2 * k)%nat -> length (pair_bytes r) = k.
Proof.
  revert r. induction k as [| k IH]; intros r Hr.
  - destruct r; [reflexivity | simpl in Hr; lia].
  - destruct r as [| lo [| hi r]]; simpl in Hr; try lia.
    cbn [pair_bytes length]. rewrite IH by lia. reflexivity.
Qed.

Lemma nrows_crop (a : ndarray) (h w : Z) :
  nrows (crop a h w) = slice_stop (nrows a) h.
Proof.
  unfold crop, nrows. cbn [rows]. rewrite length_map, length_take.
  pose proof (slice_stop_le (length (rows a)) h). lia.
Qed.

Lemma slice_stop_within (n : nat) (k : Z) :
  0 <= k <= Z.of_nat n -> slice_stop n k = Z.to_nat k.
Proof.
  intros Hk. unfold slice_stop. destruct (Z.ltb_spec k 0); lia.
Qed.

Lemma map_rectangular (f : list Z -> list Z) (a : ndarray) (m : nat) (d : dtype) :
  rectangular a -> (forall r, length r = ncols a -> length (f r) = m) ->
  rectangular (NdArray d m (map f (rows a))).
Proof.
  unfold rectangular. cbn [rows ncols]. intros Hr Hf.
  apply Forall_map. eapply Forall_impl; [exact Hr |]. intros r Hlen. apply Hf, Hlen.
Qed.

(** X8.  The padding goes, the declared size stays: when the declared row
    is a whole number of bytes and the buffer holds at least the declared
    rows and bytes per row, unpacking at a stored depth of 10, 12 or 16 bits
    gives a rectangular uint16 array of exactly height x width samples. *)
Theorem unpack_declared_shape (model : BaseCameraModel.t) (data : ndarray)
    (width height : Z) :
  let fmt := BaseCameraModel.fmt model in
  let s_bpp := stored_bpp fmt in
  fmt_size fmt = Some (width, height) ->
  0 <= width -> 0 <= height ->
  s_bpp = 10 \/ s_bpp = 12 \/ s_bpp = 16 ->
  (width * s_bpp) mod 8 = 0 ->
  dt data = uint8 -> rectangular data -> byte_valued data ->
  height <= Z.of_nat (nrows data) ->
  width * s_bpp / 8 <= Z.of_nat (ncols data) ->
  exists a,
    RPICAM2DNG.__unpack_pixels__ (Some model) data = Ok a
    /\ dt a = uint16
    /\ shape a = (Z.to_nat height, Z.to_nat width)
    /\ rectangular a.
Proof.
  intros fmt s_bpp Hsize Hw Hh Hdepth Hwhole Hdt Hrect Hbytes Hrows Hcols.
  rewrite unpack_pixels_bytes by assumption. fold fmt.
  pose proof (cropped_rectangular fmt data Hrect) as Hkrect.
  assert (Hkept : nrows (cropped fmt data) = Z.to_nat height
                  /\ ncols (cropped fmt data) = Z.to_nat (width * s_bpp / 8)).
  { unfold cropped. rewrite Hsize. cbn [default from_option id]. fold s_bpp. split.
    - rewrite nrows_crop. apply slice_stop_within. lia.
    - unfold crop. cbn [ncols]. unfold bytes_per_row.
      rewrite Z.quot_div_nonneg by lia. apply slice_stop_within.
      split; [apply Z.div_pos; lia | lia]. }
  destruct Hkept as [Hkrows Hkcols].
  destruct Hdepth as [H10 | [H12 | H16]].
  - assert (Hk : ncols (cropped fmt data) = (5 * Z.to_nat (width / 4))%nat).
    { rewrite Hkcols, H10. rewrite H10 in Hwhole. Z.div_mod_to_equations. lia. }
    rewrite (unpack_stored_10 fmt data _ Hrect Hbytes H10 Hk).
    eexists. split; [reflexivity |]. split; [reflexivity |]. split.
    + unfold shape, nrows. cbn [rows ncols]. rewrite length_map.
      fold (nrows (cropped fmt data)). rewrite Hkrows. f_equal.
      rewrite H10 in Hwhole. Z.div_mod_to_equations. lia.
    + apply map_rectangular; [exact Hkrect |].
      intros r Hr. apply length_groups10. lia.
  - assert (Hk : ncols (cropped fmt data) = (3 * Z.to_nat (width / 2))%nat).
    { rewrite Hkcols, H12. rewrite H12 in Hwhole. Z.div_mod_to_equations. lia. }
    rewrite (unpack_stored_12 fmt data _ Hrect Hbytes H12 Hk).
    eexists. split; [reflexivity |]. split; [reflexivity |]. split.
    + unfold shape, nrows. cbn [rows ncols]. rewrite length_map.
      fold (nrows (cropped fmt data)). rewrite Hkrows. f_equal.
      rewrite H12 in Hwhole. Z.div_mod_to_equations. lia.
    + apply map_rectangular; [exact Hkrect |].
      intros r Hr. apply length_groups12. lia.
  - assert (Hk : ncols (cropped fmt data) = (2 * Z.to_nat width)%nat).
    { rewrite Hkcols, H16. Z.div_mod_to_equations. lia. }
    unfold unpack_stored. fold s_bpp. rewrite H16. cbn [Z.eqb Pos.eqb].
    unfold view_uint16. rewrite Hk.
    replace (Nat.even (2 * Z.to_nat width)) with true
      by (symmetry; apply Nat.even_spec; eexists; reflexivity).
    replace (2 * Z.to_nat width / 2)%nat with (Z.to_nat width)
      by (apply (Nat.div_unique _ _ _ 0%nat); lia).
    eexists. split; [reflexivity |]. split; [reflexivity |]. split.
    + unfold shape, nrows. cbn [rows ncols]. rewrite length_map.
      fold (nrows (cropped fmt data)). rewrite Hkrows. reflexivity.
    + apply map_rectangular; [exact Hkrect |].
      intros r Hr. apply length_pair_bytes. lia.
Qed.

(** X9.  A capture format without a "size" entry is read as 0 x 0: the
    unpacker raises nothing and returns an array without rows or columns,
    whatever the buffer holds. *)
Theorem unpack_without_size (model : BaseCameraModel.t) (data : ndarray) :
  fmt_size (BaseCameraModel.fmt model) = None ->
  dt data = uint8 ->
  exists d, RPICAM2DNG.__unpack_pixels__ (Some model) data = Ok (NdArray d 0 []).
Proof.
  intros Hsize Hdt. rewrite unpack_pixels_bytes by assumption.
  unfold unpack_stored, cropped. rewrite Hsize. cbn [default from_option id].
  unfold crop, bytes_per_row. cbn [Z.mul Z.quot Z.quotrem fst].
  assert (Hz : forall n, slice_stop n 0 = 0%nat) by (intros n; unfold slice_stop; cbn; lia).
  rewrite !Hz. cbn [take map].
  destruct (_ =? 10); [eexists; reflexivity |].
  destruct (_ =? 12); [eexists; reflexivity |].
  destruct (_ =? 16); eexists; reflexivity.
Qed.

End UnpackShape.

(** ** More on the filter step *)

Section FilterMore.

(** X10.  The filter step returns an array exactly when the hook returned
    that array, of the shape of the input as the hook left it and of
    element type uint16: the result is the hook's array itself, never a
    copy or a conversion. *)
Theorem filter_accepts_iff (rawFrame : ndarray) (f : hook) (p : ndarray) :
  (DNGBASE.__filter__ rawFrame (Some f)).2 = Ok p
  <-> returned (f rawFrame) = Ok (PyArray p)
      /\ shape p = shape (arg_after (f rawFrame))
      /\ dt p = uint16.
Proof.
  unfold DNGBASE.__filter__. cbn [snd].
  destruct (returned (f rawFrame)) as [[q |] | e].
  - destruct (decide (shape q <> shape (arg_after (f rawFrame)))) as [Hs | Hs].
    + split; [discriminate |]. intros (Hq & Hshape & _). congruence.
    + destruct (decide (dt q <> uint16)) as [Hd | Hd].
      * split; [discriminate |]. intros (Hq & _ & Hdt). congruence.
      * split.
        -- intros Hq. injection Hq as ->. repeat split.
           ++ destruct (decide (shape p = shape (arg_after (f rawFrame)))); [assumption | contradiction].
           ++ destruct (decide (dt p = uint16)); [assumption | contradiction].
        -- intros (Hq & _). congruence.
  - split; [discriminate |]. intros (Hq & _). discriminate.
  - split; [discriminate |]. intros (Hq & _). discriminate.
Qed.

(** X11.  A hook that hands back its argument untouched is accepted for
    uint16 frames only: on a frame of any other element type the filter
    step fails with [FilterTypeError]. *)
Theorem filter_identity_hook (rawFrame : ndarray) :
  DNGBASE.__filter__ rawFrame (Some (fun a => HookResult a (Ok (PyArray a))))
  = (rawFrame, if decide (dt rawFrame = uint16) then Ok rawFrame else Err FilterTypeError).
Proof.
  unfold DNGBASE.__filter__. cbn [arg_after returned].
  destruct (decide (shape rawFrame <> shape rawFrame)) as [Hs | _]; [contradiction |].
  destruct (decide (dt rawFrame <> uint16)), (decide (dt rawFrame = uint16));
    try contradiction; reflexivity.
Qed.

(** X12.  When the hook does not return an array, the filter step fails:
    with the hook's own exception if it raised, with [FilterNotArray] if it
    returned something else; the input array is as the hook left it. *)
Theorem filter_without_array (rawFrame : ndarray) (f : hook) :
  (forall p, returned (f rawFrame) <> Ok (PyArray p)) ->
  DNGBASE.__filter__ rawFrame (Some f)
  = (arg_after (f rawFrame),
     Err (match returned (f rawFrame) with
          | Err e => e
          | Ok _ => FilterNotArray
          end)).
Proof.
  intros Hno. unfold DNGBASE.__filter__.
  destruct (returned (f rawFrame)) as [[q |] | e]; [| reflexivity | reflexivity].
  exfalso. apply (Hno q). reflexivity.
Qed.

End FilterMore.

(** ** More on the tag check and on [options] *)

Section OptionsMore.
Context `{Tag.Registry, Compression.Codes, DNGVersion.Codes, SampleFormat.Codes}.
Context `{LjpegCompress, Packing, FloatCast, Layout}.

(** X14.  The tag check reports the first absent tag in the order width,
    length, bits per sample: an absent length is reported only when the
    width is there, an absent bit depth only when both are. *)
Theorem tags_condition_reports_first (tags : DNGTags) (t : required_tag) :
  DNGBASE.__tags_condition__ tags = Err (MissingRequiredTag t) <->
  match t with
  | ReqImageWidth => tags_get tags Tag.ImageWidth = None
  | ReqImageLength =>
      is_Some (tags_get tags Tag.ImageWidth) /\ tags_get tags Tag.ImageLength = None
  | ReqBitsPerSample =>
      is_Some (tags_get tags Tag.ImageWidth) /\ is_Some (tags_get tags Tag.ImageLength)
      /\ tags_get tags Tag.BitsPerSample = None
  end.
Proof.
  unfold DNGBASE.__tags_condition__.
  destruct (tags_get tags Tag.ImageWidth), (tags_get tags Tag.ImageLength),
    (tags_get tags Tag.BitsPerSample), t; split;
    try (intros; discriminate); try (intros; reflexivity);
    try (intros Hx; repeat split; eauto; fail);
    intros Hx;
    repeat match goal with
           | Hc : _ /\ _ |- _ => destruct Hc
           | Hn : is_Some None |- _ => destruct Hn
           end; try discriminate; try congruence.
Qed.

(** X15.  [options] stores and overwrites: a successful call leaves the
    tag table, the path, the compression flag and the predictor it was
    given in the converter, whatever was there before; the filter hook, the
    class and the model are those the converter had; and a second call
    gives what it would have given on the original converter. *)
Theorem options_overwrites (self configured : Self.t) (tags tags' : DNGTags)
    (path path' : string) (compress compress' : bool) (predictor predictor' : Z) :
  DNGBASE.options self tags path compress predictor = Ok configured ->
  (Self.tags configured = Some tags
   /\ Self.path configured = Some path
   /\ Self.compress configured = Some compress
   /\ Self.predictor configured = Some predictor)
  /\ DNGBASE.options configured tags' path' compress' predictor'
     = DNGBASE.options self tags' path' compress' predictor'
  /\ Self.filter configured = Self.filter self
  /\ Self.cls configured = Self.cls self
  /\ Self.model configured = Self.model self.
Proof.
  unfold DNGBASE.options. intros Hfirst.
  destruct (DNGBASE.__tags_condition__ tags); [| discriminate].
  injection Hfirst as <-. cbn. repeat split; reflexivity.
Qed.

End OptionsMore.

(** ** More on [convert] *)

Section ConvertMore.
Context `{Tag.Registry, Compression.Codes, DNGVersion.Codes, SampleFormat.Codes}.
Context `{LjpegCompress, Packing, FloatCast, Layout, FileSystem}.

Lemma convert_unpacked_without_predictor (self : Self.t) (tags : DNGTags)
    (unpacked : ndarray) (filename : string) :
  Self.predictor self = None ->
  exists e, convert_unpacked self tags unpacked filename = ([], Err e).
Proof.
  intros Hp. unfold convert_unpacked. rewrite Hp.
  destruct (DNGBASE.__filter__ unpacked (Self.filter self)).2; cbn; eauto.
Qed.

(** X16.  [CAM2DNG.options] (and with it [PICAM2DNG.options]) never assigns
    [predictor]: on a converter that had none, as [__init__] leaves it, a
    successful call is followed by a [convert] that always ends in an
    exception, without a buffer allocated or the coder invoked. *)
Theorem cam_options_then_convert_fails (self configured : Self.t) (path : string)
    (compress : bool) (image : ndarray) (filename : string) :
  Self.predictor self = None ->
  CAM2DNG.options self path compress = Ok configured ->
  exists e,
    outcome (convert configured image filename) = Err e
    /\ allocations (events (convert configured image filename)) = []
    /\ coder_calls (events (convert configured image filename)) = [].
Proof.
  intros Hp Hopt. unfold CAM2DNG.options in Hopt.
  destruct (Self.model self) as [model |]; [| discriminate].
  destruct (DNGBASE.__tags_condition__ _); [| discriminate].
  injection Hopt as <-. unfold convert. cbn [Self.tags].
  set (configured := Self.Make _ _ _ _ _ _ _).
  assert (Hpc : Self.predictor configured = None) by exact Hp.
  destruct (data_condition configured image) as [t [[] | e]] eqn:Hdc.
  - assert (Ht : t = [] \/ t = [Warn]).
    { unfold data_condition, DNGBASE.__data_condition__, RPICAM2DNG.__data_condition__ in Hdc.
      destruct (Self.cls configured);
        repeat match type of Hdc with context [decide ?P] => destruct (decide P) end;
        inversion Hdc; auto. }
    destruct (unpack_pixels configured image) as [unpacked | e].
    + destruct (convert_unpacked_without_predictor configured
                  (BaseCameraModel.tags model) unpacked filename Hpc) as [e He].
      exists e. cbn [bind lift]. rewrite He.
      destruct Ht as [-> | ->]; repeat split; reflexivity.
    + exists e. destruct Ht as [-> | ->]; repeat split; reflexivity.
  - assert (Ht : t = []).
    { unfold data_condition, DNGBASE.__data_condition__, RPICAM2DNG.__data_condition__ in Hdc.
      destruct (Self.cls configured);
        repeat match type of Hdc with context [decide ?P] => destruct (decide P) end;
        inversion Hdc; auto. }
    subst t. exists e. repeat split; reflexivity.
Qed.

(** X17.  An array of an accepted element type passes the check in
    silence.  For [RAW2DNG] and [CAM2DNG] it then reaches the filter step as
    it is; for the Raspberry Pi classes it is unpacked first. *)
Theorem accepted_dtype_passes (self : Self.t) (tags : DNGTags) (image : ndarray)
    (filename : string) :
  Self.tags self = Some tags ->
  accepted_dtype (Self.cls self) (dt image) = true ->
  convert self image filename
  = match Self.cls self with
    | IsRAW2DNG | IsCAM2DNG => convert_unpacked self tags image filename
    | IsRPICAM2DNG | IsPICAM2DNG =>
        let! unpacked := lift (RPICAM2DNG.__unpack_pixels__ (Self.model self) image) in
        convert_unpacked self tags unpacked filename
    end.
Proof.
  intros Htags Hacc. unfold convert, data_condition, unpack_pixels. rewrite Htags.
  unfold accepted_dtype in Hacc.
  destruct (Self.cls self).
  1, 2: unfold DNGBASE.__data_condition__, DNGBASE.__unpack_pixels__;
    apply orb_true_iff in Hacc as [Hacc | Hacc]; apply bool_decide_eq_true in Hacc;
    (destruct (decide (dt image <> uint16 /\ dt image <> float32)) as [[Hn1 Hn2] | _];
     [congruence |]);
    cbn [ret lift bind app];
    destruct (convert_unpacked self tags image filename) as [t r]; reflexivity.
  all: apply bool_decide_eq_true in Hacc;
    unfold RPICAM2DNG.__data_condition__;
    (destruct (decide (dt image <> uint8)); [contradiction |]);
    cbn [ret bind app];
    destruct (let! unpacked := lift (RPICAM2DNG.__unpack_pixels__ (Self.model self) image) in
              convert_unpacked self tags unpacked filename) as [t r]; reflexivity.
Qed.

End ConvertMore.

(** ** More on [__process__] *)

Section ProcessMore.
Context `{Tag.Registry, Compression.Codes, DNGVersion.Codes, SampleFormat.Codes}.
Context `{LjpegCompress, Packing, FloatCast, Layout}.

Lemma first_value_readable (tags : DNGTags) (key : tag_key) :
  (exists tag v vs, tags_get tags key = Some tag /\ rawValue tag = v :: vs) ->
  exists v, DNGBASE.first_value (tags_get tags key) = Ok v.
Proof.
  intros (tag & v & vs & Hget & Hraw). exists v.
  unfold DNGBASE.first_value. rewrite Hget, Hraw. reflexivity.
Qed.

(** X18.  [__process__] does not check the tag table again.  It reads the
    width, the length and the bit depth in this order, and at the first of
    the three that cannot be read it raises before doing anything, whatever
    the frame, the compression flag and the predictor: [AttributeError]
    when the tag is absent, [IndexError] when the tag is there with an empty
    value. *)
Theorem process_unreadable_tags (rawFrame : ndarray) (tags : DNGTags)
    (compress : bool) (predictor : Z) (i : nat) (key : tag_key) :
  [Tag.ImageWidth; Tag.ImageLength; Tag.BitsPerSample] !! i = Some key ->
  (forall (j : nat) (earlier : tag_key),
      j < i ->
      [Tag.ImageWidth; Tag.ImageLength; Tag.BitsPerSample] !! j = Some earlier ->
      exists tag v vs, tags_get tags earlier = Some tag /\ rawValue tag = v :: vs) ->
  (tags_get tags key = None ->
   DNGBASE.__process__ rawFrame tags compress predictor = ([], Err AttributeError))
  /\ (forall tag : dngTag,
        tags_get tags key = Some tag -> rawValue tag = [] ->
        DNGBASE.__process__ rawFrame tags compress predictor = ([], Err IndexError)).
Proof.
  intros Hkey Hearlier.
  assert (Hread : forall (j : nat) (earlier : tag_key),
             j < i ->
             [Tag.ImageWidth; Tag.ImageLength; Tag.BitsPerSample] !! j = Some earlier ->
             exists v, DNGBASE.first_value (tags_get tags earlier) = Ok v)
    by (intros j earlier Hj Hlook; apply first_value_readable; eauto).
  unfold DNGBASE.__process__.
  destruct i as [| [| [| i]]]; cbn in Hkey; [| | | discriminate];
    injection Hkey as <-.
  - split; [intros Hnone | intros tag Hsome Hempty].
    + rewrite Hnone. reflexivity.
    + rewrite Hsome. cbn. rewrite Hempty. reflexivity.
  - destruct (Hread 0 Tag.ImageWidth) as [w Hw]; [lia | reflexivity |].
    rewrite Hw. cbn [lift bind app].
    split; [intros Hnone | intros tag Hsome Hempty].
    + rewrite Hnone. reflexivity.
    + rewrite Hsome. cbn. rewrite Hempty. reflexivity.
  - destruct (Hread 0 Tag.ImageWidth) as [w Hw]; [lia | reflexivity |].
    destruct (Hread 1 Tag.ImageLength) as [l Hl]; [lia | reflexivity |].
    rewrite Hw, Hl. cbn [lift bind app].
    split; [intros Hnone | intros tag Hsome Hempty].
    + rewrite Hnone. reflexivity.
    + rewrite Hsome. cbn. rewrite Hempty. reflexivity.
Qed.

Lemma assemble_allocates (tile : list Z) (tags : DNGTags) (cs : Z) (bv : list Z) (sf : Z) :
  exists n buf, DNGBASE.assemble tile tags cs bv sf = ([Alloc n], Ok buf).
Proof. unfold DNGBASE.assemble. cbn [emit bind ret app]. eauto. Qed.

Lemma uncompressed_tile_events (rawFrame : ndarray) (width length bpp predictor : Z) :
  events (DNGBASE.encode_tile rawFrame width length bpp false predictor) = [].
Proof.
  unfold DNGBASE.encode_tile.
  repeat match goal with |- context [(bpp =? ?n)%Z] => destruct (bpp =? n)%Z end;
    try reflexivity.
  - destruct (pack10 rawFrame); reflexivity.
  - destruct (pack12 rawFrame); reflexivity.
  - destruct (pack14 rawFrame); reflexivity.
Qed.

(** X19.  Without compression the external coder is never invoked,
    whatever the frame, the tag table and the predictor. *)
Theorem uncompressed_never_calls_coder (rawFrame : ndarray) (tags : DNGTags)
    (predictor : Z) :
  coder_calls (events (DNGBASE.__process__ rawFrame tags false predictor)) = [].
Proof.
  unfold DNGBASE.__process__.
  destruct (DNGBASE.first_value (tags_get tags Tag.ImageWidth)) as [w | e]; [| reflexivity].
  destruct (DNGBASE.first_value (tags_get tags Tag.ImageLength)) as [l | e]; [| reflexivity].
  destruct (DNGBASE.first_value (tags_get tags Tag.BitsPerSample)) as [b | e]; [| reflexivity].
  cbn [lift bind app]. rewrite andb_false_r.
  pose proof (uncompressed_tile_events rawFrame w l b predictor) as Hev.
  destruct (DNGBASE.encode_tile rawFrame w l b false predictor) as [t [tile | e]];
    cbn [events fst] in Hev; subst t; [| reflexivity].
  cbn [bind].
  destruct (bool_decide (dt rawFrame = float32));
    match goal with
    | |- context [DNGBASE.assemble ?t ?g ?c ?b ?s] =>
        destruct (assemble_allocates t g c b s) as (n & buf & Hbuf); rewrite Hbuf
    end; reflexivity.
Qed.

(** X21.  With compression and predictor 1 or 6, an exception raised by
    the external coder ends the conversion as it is, right after the one
    call of the coder: no buffer is allocated. *)
Theorem coder_failure_propagates (rawFrame : ndarray) (tags : DNGTags)
    (predictor width length bpp : Z)
    (pack16tolj : ndarray -> Z -> Z -> Z -> Z -> result (list Z)) (e : error) :
  let coder_width := if (predictor =? 1)%Z then width else (width * 2)%Z in
  let coder_height := if (predictor =? 1)%Z then length else Z.quot length 2 in
  dt rawFrame <> float32 ->
  DNGBASE.first_value (tags_get tags Tag.ImageWidth) = Ok width ->
  DNGBASE.first_value (tags_get tags Tag.ImageLength) = Ok length ->
  DNGBASE.first_value (tags_get tags Tag.BitsPerSample) = Ok bpp ->
  ljpegCompress = Some pack16tolj ->
  predictor = 1%Z \/ predictor = 6%Z ->
  pack16tolj rawFrame coder_width coder_height bpp predictor = Err e ->
  DNGBASE.__process__ rawFrame tags true predictor
  = ([CoderCall rawFrame coder_width coder_height bpp predictor], Err e).
Proof.
  intros cw ch Hdt Hw Hl Hb Hcoder Hp Hfail.
  rewrite (process_compressed _ _ _ width length bpp) by assumption.
  unfold DNGBASE.encode_tile. rewrite Hcoder.
  assert (Hcall : (if (predictor =? 1)%Z
                   then DNGBASE.call_coder pack16tolj rawFrame width length bpp 1%Z
                   else if (predictor =? 6)%Z
                        then DNGBASE.call_coder pack16tolj rawFrame (width * 2)%Z
                               (Z.quot length 2) bpp 6%Z
                        else raise InvalidPredictor)
                  = DNGBASE.call_coder pack16tolj rawFrame cw ch bpp predictor).
  { unfold cw, ch. destruct Hp as [-> | ->]; reflexivity. }
  rewrite Hcall. unfold DNGBASE.call_coder. cbn [emit bind lift app].
  rewrite Hfail. reflexivity.
Qed.

(** X22.  With compression, [ljpegCompress] is imported before the
    predictor is looked at: when it cannot be imported the conversion ends
    in [ImportError] for every predictor, valid or not, and nothing is
    allocated. *)
Theorem compressed_without_coder (rawFrame : ndarray) (tags : DNGTags)
    (predictor width length bpp : Z) :
  dt rawFrame <> float32 ->
  DNGBASE.first_value (tags_get tags Tag.ImageWidth) = Ok width ->
  DNGBASE.first_value (tags_get tags Tag.ImageLength) = Ok length ->
  DNGBASE.first_value (tags_get tags Tag.BitsPerSample) = Ok bpp ->
  ljpegCompress = None ->
  DNGBASE.__process__ rawFrame tags true predictor = ([], Err ImportError).
Proof.
  intros Hdt Hw Hl Hb Hcoder.
  rewrite (process_compressed _ _ _ width length bpp) by assumption.
  unfold DNGBASE.encode_tile. rewrite Hcoder. reflexivity.
Qed.

(** *** Strip sizes *)

Lemma length_tobytes (a : ndarray) :
  rectangular a -> List.length (tobytes a) = itemsize (dt a) * (nrows a * ncols a).
Proof.
  unfold rectangular, tobytes, nrows. intros Hrect.
  induction Hrect as [| r rs Hr Hrs IH]; cbn [map concat List.length]; [lia |].
  rewrite length_app, IH.
  assert (Hrow : List.length (concat (map (le_bytes (itemsize (dt a))) r))
                 = itemsize (dt a) * List.length r).
  { clear. induction r as [| x r IHr]; cbn [map concat List.length]; [lia |].
    rewrite length_app, length_le_bytes, IHr. lia. }
  rewrite Hrow, Hr. lia.
Qed.

(** X23.  The uncompressed strip has no padding: for a rectangular frame
    of h x w samples it is h * w bytes long at 8 bits per sample and
    h * w * (bytes per element of the frame) long at any depth other than
    8, 10, 12 and 14; the declared width and height play no part. *)
Theorem uncompressed_strip_length (rawFrame : ndarray) (width length bpp predictor : Z) :
  rectangular rawFrame ->
  bpp <> 10%Z -> bpp <> 12%Z -> bpp <> 14%Z ->
  exists tile,
    DNGBASE.encode_tile rawFrame width length bpp false predictor = ([], Ok tile)
    /\ List.length tile
       = (if (bpp =? 8)%Z then 1 else itemsize (dt rawFrame))
         * (nrows rawFrame * ncols rawFrame).
Proof.
  intros Hrect H10 H12 H14. unfold DNGBASE.encode_tile.
  rewrite (proj2 (Z.eqb_neq _ _) H10), (proj2 (Z.eqb_neq _ _) H12),
    (proj2 (Z.eqb_neq _ _) H14).
  destruct (bpp =? 8)%Z.
  - eexists. split; [reflexivity |].
    rewrite length_tobytes.
    + unfold astype_uint8, nrows. cbn [dt rows ncols itemsize]. rewrite length_map. reflexivity.
    + unfold rectangular, astype_uint8 in *. cbn [rows ncols].
      apply Forall_map. eapply Forall_impl; [exact Hrect |].
      intros r Hr. cbn beta. rewrite length_map. exact Hr.
  - eexists. split; [reflexivity |]. apply length_tobytes, Hrect.
Qed.

End ProcessMore.

(** ** File output *)

Section FileOutput.
Context `{Tag.Registry, Compression.Codes, DNGVersion.Codes, SampleFormat.Codes}.
Context `{LjpegCompress, Packing, FloatCast, Layout, FileSystem}.






End FileOutput.

(** ** More on the strip and on the coder's arguments *)

Section StripMore.
Context `{Tag.Registry, Compression.Codes, DNGVersion.Codes, SampleFormat.Codes}.
Context `{LjpegCompress, Packing, FloatCast, Layout}.

(** X20.  Predictor 6 hands the coder a tile of [2 * width] by
    [length / 2] rounded towards zero: for a declared height that is not
    negative, the tile covers the declared samples up to the last even row,
    so an odd height leaves the last row out. *)
Theorem predictor6_covers_even_rows (rawFrame : ndarray) (tags : DNGTags)
    (width length bpp : Z)
    (pack16tolj : ndarray -> Z -> Z -> Z -> Z -> result (list Z)) :
  dt rawFrame <> float32 ->
  DNGBASE.first_value (tags_get tags Tag.ImageWidth) = Ok width ->
  DNGBASE.first_value (tags_get tags Tag.ImageLength) = Ok length ->
  DNGBASE.first_value (tags_get tags Tag.BitsPerSample) = Ok bpp ->
  ljpegCompress = Some pack16tolj ->
  (0 <= length)%Z ->
  exists coder_width coder_height,
    coder_calls (events (DNGBASE.__process__ rawFrame tags true 6))
    = [CoderCall rawFrame coder_width coder_height bpp 6]
    /\ (coder_width * coder_height = width * (length - length mod 2))%Z.
Proof.
  intros Hdt Hw Hl Hb Hcoder Hlen.
  exists (width * 2)%Z, (Z.quot length 2). split.
  - rewrite (process_compressed _ _ _ width length bpp) by assumption.
    unfold DNGBASE.encode_tile. rewrite Hcoder. cbn [Z.eqb Pos.eqb].
    unfold DNGBASE.call_coder.
    destruct (pack16tolj rawFrame (width * 2)%Z (Z.quot length 2) bpp 6%Z); reflexivity.
  - rewrite Z.quot_div_nonneg by lia. Z.div_mod_to_equations. nia.
Qed.

Lemma le_bytes_1 (x : Z) : le_bytes 1 x = [(x mod 256)%Z].
Proof. reflexivity. Qed.

(** X25.  At 8 bits per sample, without compression, the strip of a frame
    of integers holds the low byte of every sample, row after row: a sample
    above 255 is cut to its low byte, not clipped and not refused. *)
Theorem uncompressed_8bit_low_bytes (rawFrame : ndarray) (width length predictor : Z) :
  dt rawFrame <> float32 -> dt rawFrame <> float64 ->
  DNGBASE.encode_tile rawFrame width length 8 false predictor
  = ([], Ok (concat (map (map (fun x => x mod 256)%Z) (rows rawFrame)))).
Proof.
  intros Hf32 Hf64. unfold DNGBASE.encode_tile. cbn [Z.eqb Pos.eqb]. unfold ret.
  do 2 f_equal. unfold tobytes, astype_uint8. cbn [dt rows itemsize].
  rewrite map_map. f_equal. apply map_ext. intros r.
  destruct (dt rawFrame); try contradiction;
    induction r as [| x r IH]; cbn [map concat app]; try reflexivity;
    rewrite le_bytes_1, Z.mod_mod by lia; cbn [app]; f_equal; exact IH.
Qed.

End StripMore.

Section RoundTrip16.
Local Open Scope Z_scope.

Lemma pair_bytes_of_le (r : list Z) :
  Forall (fun s => 0 <= s < 65536) r ->
  pair_bytes (concat (map (le_bytes 2) r)) = r.
Proof.
  induction 1 as [| s r Hs Hr IH]; [reflexivity |].
  cbn [map concat].
  change (le_bytes 2 s) with [s mod 256; (s / 256) mod 256].
  change (pair_bytes ([s mod 256; (s / 256) mod 256] ++ concat (map (le_bytes 2) r)))
    with ((s mod 256 + 256 * ((s / 256) mod 256))
          :: pair_bytes (concat (map (le_bytes 2) r))).
  rewrite IH. f_equal. Z.div_mod_to_equations. lia.
Qed.

Lemma le_bytes_are_bytes (n : nat) (x : Z) : Forall (fun b => 0 <= b < 256) (le_bytes n x).
Proof.
  revert x. induction n as [| n IH]; intros x; cbn [le_bytes]; constructor; [| apply IH].
  apply Z.mod_pos_bound. lia.
Qed.

(** X26.  The 16-bit pass-through undoes the uncompressed 16-bit strip: a
    buffer whose rows are the little-endian bytes of the rows of a uint16
    frame, read under an unpacked capture format of the frame's size, gives
    the frame back. *)
Theorem unpack16_of_serialised (model : BaseCameraModel.t) (data frame : ndarray) :
  let fmt := BaseCameraModel.fmt model in
  dt data = uint8 -> dt frame = uint16 ->
  stored_bpp fmt = 16 ->
  fmt_size fmt = Some (Z.of_nat (ncols frame), Z.of_nat (nrows frame)) ->
  rectangular frame ->
  Forall (Forall (fun s => 0 <= s < 65536)) (rows frame) ->
  ncols data = (2 * ncols frame)%nat ->
  rows data = map (fun r => concat (map (le_bytes 2) r)) (rows frame) ->
  tobytes data = tobytes frame
  /\ RPICAM2DNG.__unpack_pixels__ (Some model) data = Ok frame.
Proof.
  intros fmt Hdt Hdtf Hbpp Hsize Hrect Hrange Hcols Hrows. split.
  - unfold tobytes. rewrite Hdt, Hdtf, Hrows, map_map. cbn [itemsize]. f_equal.
    apply map_ext. intros r. apply bytes_of_bytes.
    induction r as [| x r IH]; cbn [map concat]; [constructor |].
    apply Forall_app. split; [apply le_bytes_are_bytes | exact IH].
  - rewrite unpack_pixels_bytes by assumption. fold fmt.
    unfold unpack_stored. rewrite Hbpp. cbn [Z.eqb Pos.eqb].
    assert (Hkept : cropped fmt data = data).
    { unfold cropped. rewrite Hsize. cbn [default from_option id].
      unfold crop, bytes_per_row. rewrite Hbpp.
      assert (Hc : slice_stop (ncols data) (Z.quot (Z.of_nat (ncols frame) * 16) 8)
                   = ncols data).
      { rewrite Z.quot_div_nonneg by lia.
        replace (Z.of_nat (ncols frame) * 16 / 8) with (Z.of_nat (ncols data))
          by (rewrite Hcols; Z.div_mod_to_equations; lia).
        unfold slice_stop. destruct (Z.ltb_spec (Z.of_nat (ncols data)) 0); lia. }
      assert (Hr : slice_stop (nrows data) (Z.of_nat (nrows frame)) = nrows data).
      { unfold nrows. rewrite Hrows, length_map. unfold slice_stop.
        destruct (Z.ltb_spec (Z.of_nat (length (rows frame))) 0); lia. }
      rewrite Hc, Hr. unfold nrows. rewrite firstn_all.
      apply ndarray_ext; cbn [dt ncols rows]; try reflexivity.
      rewrite Hrows, map_map. apply map_ext_Forall.
      unfold rectangular in Hrect. eapply Forall_impl; [exact Hrect |].
      intros r Hlen. cbn beta. apply firstn_all2.
      assert (Hlr : forall l : list Z, length (concat (map (le_bytes 2) l)) = (2 * length l)%nat).
      { clear. induction l as [| x l IHl]; cbn [map concat length]; [reflexivity |].
        rewrite length_app, length_le_bytes, IHl. lia. }
      rewrite Hlr, Hcols, Hlen. lia. }
    rewrite Hkept. unfold view_uint16. rewrite Hcols.
    replace (Nat.even (2 * ncols frame)) with true
      by (symmetry; apply Nat.even_spec; eexists; reflexivity).
    replace (2 * ncols frame / 2)%nat with (ncols frame)
      by (apply (Nat.div_unique _ _ _ 0%nat); lia).
    f_equal. apply ndarray_ext; cbn [dt ncols rows]; [congruence | reflexivity |].
    rewrite Hrows, map_map. rewrite <- (map_id (rows frame)) at 2.
    apply map_ext_Forall. eapply Forall_impl; [exact Hrange |].
    intros r Hr. apply pair_bytes_of_le, Hr.
Qed.

End RoundTrip16.

(** ** The entry encoder of the concrete environment *)

Section SampleLayout.
#[local] Existing Instance Sample.layout.

Lemma length_concat_le_bytes (n : nat) (values : list Z) :
  length (concat (map (le_bytes n) values)) = n * length values.
Proof.
  induction values as [| v values IH]; cbn [map concat length]; [lia |].
  rewrite length_app, length_le_bytes, IH. lia.
Qed.

(** Every entry takes its twelve bytes: two of tag id, two of type, four of
    count and four of value or position. *)
Lemma sample_entry_sized (t : dngTag) (pos : nat) :
  length (encode_entry t pos) = entry_size.
Proof.
  cbn [encode_entry entry_size Sample.layout]. unfold Sample.value_field.
  rewrite !length_app, !length_le_bytes.
  destruct (4 <? Sample.sizes (DataType t) * length (rawValue t)) eqn:Hwide.
  - rewrite length_le_bytes. reflexivity.
  - apply Nat.ltb_ge in Hwide.
    rewrite length_app, repeat_length, length_concat_le_bytes. lia.
Qed.

End SampleLayout.

(** ** The further theorems at concrete inputs *)

Section EvaluationMore.
#[local] Existing Instances Sample.registry Sample.compression Sample.versions
  Sample.sample_formats Sample.coder Sample.packing Sample.float_cast Sample.layout
  Sample.file_system.

Lemma unpack16_reinterprets_witness :
  dt Cases.bytes4 = uint8 /\ rectangular Cases.bytes4 /\ byte_valued Cases.bytes4
  /\ stored_bpp (BaseCameraModel.fmt Cases.model16) = 16%Z
  /\ exists a,
      RPICAM2DNG.__unpack_pixels__ (Some Cases.model16) Cases.bytes4 = Ok a
      /\ dt a = uint16 /\ nrows a = 1 /\ ncols a = 2
      /\ tobytes a = [1; 2; 3; 4]%Z.
Proof.
  assert (Hrect : rectangular Cases.bytes4) by (repeat constructor).
  assert (Hbytes : byte_valued Cases.bytes4) by (repeat constructor; lia).
  refine (conj eq_refl (conj Hrect (conj Hbytes (conj eq_refl _)))).
  exact (unpack16_reinterprets Cases.model16 Cases.bytes4 eq_refl Hrect Hbytes eq_refl).
Defined.

Lemma unpack10_succeeds_iff_witness :
  dt Sample.packed10 = uint8
  /\ stored_bpp (BaseCameraModel.fmt Sample.model10) = 10%Z
  /\ (is_ok (RPICAM2DNG.__unpack_pixels__ (Some Sample.model10) Sample.packed10) = true
      <-> (5 mod 5 = 0 \/ 6 <= 5 <= 9)).
Proof.
  refine (conj eq_refl (conj eq_refl _)).
  exact (proj1 (unpack10_succeeds_iff Sample.model10 Sample.packed10 eq_refl eq_refl)).
Defined.

Lemma unpack12_succeeds_iff_witness :
  dt Sample.packed12 = uint8
  /\ stored_bpp (BaseCameraModel.fmt Sample.model12) = 12%Z
  /\ (is_ok (RPICAM2DNG.__unpack_pixels__ (Some Sample.model12) Sample.packed12) = true
      <-> (3 mod 3 = 0 \/ 3 = 1)).
Proof.
  refine (conj eq_refl (conj eq_refl _)).
  exact (proj1 (unpack12_succeeds_iff Sample.model12 Sample.packed12 eq_refl eq_refl)).
Defined.

Lemma unpack10_samples_below_1024_witness :
  dt Sample.packed10 = uint8 /\ rectangular Sample.packed10 /\ byte_valued Sample.packed10
  /\ stored_bpp (BaseCameraModel.fmt Sample.model10) = 10%Z
  /\ ncols (cropped (BaseCameraModel.fmt Sample.model10) Sample.packed10) = 5 * 1
  /\ exists a,
      RPICAM2DNG.__unpack_pixels__ (Some Sample.model10) Sample.packed10 = Ok a
      /\ dt a = uint16
      /\ Forall (Forall (fun s => 0 <= s < 1024)%Z) (rows a).
Proof.
  assert (Hrect : rectangular Sample.packed10) by (repeat constructor).
  assert (Hbytes : byte_valued Sample.packed10) by (repeat constructor; lia).
  refine (conj eq_refl (conj Hrect (conj Hbytes (conj eq_refl (conj eq_refl _))))).
  exact (unpack10_samples_below_1024 Sample.model10 Sample.packed10 1
           eq_refl Hrect Hbytes eq_refl eq_refl).
Defined.

Lemma unpack12_samples_below_4096_witness :
  dt Sample.packed12 = uint8 /\ rectangular Sample.packed12 /\ byte_valued Sample.packed12
  /\ stored_bpp (BaseCameraModel.fmt Sample.model12) = 12%Z
  /\ ncols (cropped (BaseCameraModel.fmt Sample.model12) Sample.packed12) = 3 * 1
  /\ exists a,
      RPICAM2DNG.__unpack_pixels__ (Some Sample.model12) Sample.packed12 = Ok a
      /\ dt a = uint16
      /\ Forall (Forall (fun s => 0 <= s < 4096)%Z) (rows a).
Proof.
  assert (Hrect : rectangular Sample.packed12) by (repeat constructor).
  assert (Hbytes : byte_valued Sample.packed12) by (repeat constructor; lia).
  refine (conj eq_refl (conj Hrect (conj Hbytes (conj eq_refl (conj eq_refl _))))).
  exact (unpack12_samples_below_4096 Sample.model12 Sample.packed12 1
           eq_refl Hrect Hbytes eq_refl eq_refl).
Defined.

Lemma unpack10_lossless_witness :
  rectangular Sample.packed10 /\ rectangular Cases.packed10_padded
  /\ byte_valued Sample.packed10 /\ byte_valued Cases.packed10_padded
  /\ stored_bpp (BaseCameraModel.fmt Sample.model10) = 10%Z
  /\ RPICAM2DNG.__unpack_pixels__ (Some Sample.model10) Sample.packed10
     = RPICAM2DNG.__unpack_pixels__ (Some Sample.model10) Cases.packed10_padded
  /\ cropped (BaseCameraModel.fmt Sample.model10) Sample.packed10
     = cropped (BaseCameraModel.fmt Sample.model10) Cases.packed10_padded.
Proof.
  assert (Hrect : rectangular Sample.packed10) by (repeat constructor).
  assert (Hrect' : rectangular Cases.packed10_padded) by (repeat constructor).
  assert (Hbytes : byte_valued Sample.packed10) by (repeat constructor; lia).
  assert (Hbytes' : byte_valued Cases.packed10_padded) by (repeat constructor; lia).
  refine (conj Hrect (conj Hrect' (conj Hbytes (conj Hbytes' (conj eq_refl (conj eq_refl _)))))).
  exact (unpack10_lossless Sample.model10 Sample.packed10 Cases.packed10_padded 1
           eq_refl eq_refl Hrect Hrect' Hbytes Hbytes' eq_refl eq_refl eq_refl eq_refl).
Defined.

Lemma unpack12_lossless_witness :
  rectangular Sample.packed12 /\ rectangular Cases.packed12_padded
  /\ byte_valued Sample.packed12 /\ byte_valued Cases.packed12_padded
  /\ stored_bpp (BaseCameraModel.fmt Sample.model12) = 12%Z
  /\ RPICAM2DNG.__unpack_pixels__ (Some Sample.model12) Sample.packed12
     = RPICAM2DNG.__unpack_pixels__ (Some Sample.model12) Cases.packed12_padded
  /\ cropped (BaseCameraModel.fmt Sample.model12) Sample.packed12
     = cropped (BaseCameraModel.fmt Sample.model12) Cases.packed12_padded.
Proof.
  assert (Hrect : rectangular Sample.packed12) by (repeat constructor).
  assert (Hrect' : rectangular Cases.packed12_padded) by (repeat constructor).
  assert (Hbytes : byte_valued Sample.packed12) by (repeat constructor; lia).
  assert (Hbytes' : byte_valued Cases.packed12_padded) by (repeat constructor; lia).
  refine (conj Hrect (conj Hrect' (conj Hbytes (conj Hbytes' (conj eq_refl (conj eq_refl _)))))).
  exact (unpack12_lossless Sample.model12 Sample.packed12 Cases.packed12_padded 1
           eq_refl eq_refl Hrect Hrect' Hbytes Hbytes' eq_refl eq_refl eq_refl eq_refl).
Defined.

Lemma unpack_declared_shape_witness :
  fmt_size (BaseCameraModel.fmt Sample.model10) = Some (4, 1)%Z
  /\ rectangular Sample.bytes8 /\ byte_valued Sample.bytes8
  /\ exists a,
      RPICAM2DNG.__unpack_pixels__ (Some Sample.model10) Sample.bytes8 = Ok a
      /\ dt a = uint16 /\ shape a = (1, 4) /\ rectangular a.
Proof.
  assert (Hrect : rectangular Sample.bytes8) by (repeat constructor).
  assert (Hbytes : byte_valued Sample.bytes8) by (repeat constructor; lia).
  refine (conj eq_refl (conj Hrect (conj Hbytes _))).
  refine (unpack_declared_shape Sample.model10 Sample.bytes8 4 1
            eq_refl _ _ (or_introl eq_refl) eq_refl eq_refl Hrect Hbytes _ _);
    vm_compute; discriminate.
Defined.

Lemma unpack_without_size_witness :
  fmt_size (BaseCameraModel.fmt Cases.model_without_size) = None
  /\ dt Sample.packed10 = uint8
  /\ exists d,
      RPICAM2DNG.__unpack_pixels__ (Some Cases.model_without_size) Sample.packed10
      = Ok (NdArray d 0 []).
Proof.
  refine (conj eq_refl (conj eq_refl _)).
  exact (unpack_without_size Cases.model_without_size Sample.packed10 eq_refl eq_refl).
Defined.

Lemma filter_without_array_witness :
  (forall p, returned (Cases.returns_none Sample.frame_u16) <> Ok (PyArray p))
  /\ DNGBASE.__filter__ Sample.frame_u16 (Some Cases.returns_none)
     = (Sample.frame_u16, Err FilterNotArray).
Proof.
  assert (Hno : forall p, returned (Cases.returns_none Sample.frame_u16) <> Ok (PyArray p))
    by (intros p; discriminate).
  refine (conj Hno _).
  exact (filter_without_array Sample.frame_u16 Cases.returns_none Hno).
Defined.

Lemma options_overwrites_witness :
  DNGBASE.options Sample.raw2dng Sample.tags_4x1 "out" false 6 = Ok Sample.raw2dng_ready
  /\ (Self.tags Sample.raw2dng_ready = Some Sample.tags_4x1
      /\ Self.path Sample.raw2dng_ready = Some "out"%string
      /\ Self.compress Sample.raw2dng_ready = Some false
      /\ Self.predictor Sample.raw2dng_ready = Some 6%Z)
  /\ DNGBASE.options Sample.raw2dng_ready Sample.tags_no_length "elsewhere" true 1
     = DNGBASE.options Sample.raw2dng Sample.tags_no_length "elsewhere" true 1
  /\ Self.filter Sample.raw2dng_ready = Self.filter Sample.raw2dng
  /\ Self.cls Sample.raw2dng_ready = Self.cls Sample.raw2dng
  /\ Self.model Sample.raw2dng_ready = Self.model Sample.raw2dng.
Proof.
  assert (Hfirst : DNGBASE.options Sample.raw2dng Sample.tags_4x1 "out" false 6
                   = Ok Sample.raw2dng_ready) by reflexivity.
  refine (conj Hfirst _).
  exact (options_overwrites Sample.raw2dng Sample.raw2dng_ready Sample.tags_4x1
           Sample.tags_no_length "out" "elsewhere" false true 6 1 Hfirst).
Defined.

Lemma cam_options_then_convert_fails_witness :
  Self.predictor (DNGBASE.__init__ IsRPICAM2DNG (Some Sample.model10)) = None
  /\ CAM2DNG.options (DNGBASE.__init__ IsRPICAM2DNG (Some Sample.model10)) "out" false
     = Ok Sample.rpicam_after_options
  /\ exists e,
      outcome (convert Sample.rpicam_after_options Sample.packed10 "frame") = Err e
      /\ allocations (events (convert Sample.rpicam_after_options Sample.packed10 "frame")) = []
      /\ coder_calls (events (convert Sample.rpicam_after_options Sample.packed10 "frame")) = [].
Proof.
  assert (Hopt : CAM2DNG.options (DNGBASE.__init__ IsRPICAM2DNG (Some Sample.model10))
                   "out" false = Ok Sample.rpicam_after_options) by reflexivity.
  refine (conj eq_refl (conj Hopt _)).
  exact (cam_options_then_convert_fails
           (DNGBASE.__init__ IsRPICAM2DNG (Some Sample.model10))
           Sample.rpicam_after_options "out" false Sample.packed10 "frame" eq_refl Hopt).
Defined.

Lemma accepted_dtype_passes_witness :
  Self.tags Sample.raw2dng_ready = Some Sample.tags_4x1
  /\ accepted_dtype (Self.cls Sample.raw2dng_ready) (dt Sample.frame_u16) = true
  /\ convert Sample.raw2dng_ready Sample.frame_u16 "frame"
     = convert_unpacked Sample.raw2dng_ready Sample.tags_4x1 Sample.frame_u16 "frame".
Proof.
  refine (conj eq_refl (conj eq_refl _)).
  exact (accepted_dtype_passes Sample.raw2dng_ready Sample.tags_4x1 Sample.frame_u16
           "frame" eq_refl eq_refl).
Defined.

Lemma process_unreadable_tags_witness :
  tags_get Sample.tags_no_length Tag.ImageLength = None
  /\ DNGBASE.__process__ Sample.frame_u16 Sample.tags_no_length false 6
     = ([], Err AttributeError)
  /\ tags_get Cases.tags_empty_width Tag.ImageWidth = Some (DngTag 256 Long [])
  /\ DNGBASE.__process__ Sample.frame_u16 Cases.tags_empty_width true 1
     = ([], Err IndexError).
Proof.
  assert (Hnone : tags_get Sample.tags_no_length Tag.ImageLength = None) by reflexivity.
  assert (Hempty : tags_get Cases.tags_empty_width Tag.ImageWidth
                   = Some (DngTag 256 Long [])) by reflexivity.
  assert (Hwidth : forall (j : nat) (earlier : tag_key),
             j < 1 ->
             [Tag.ImageWidth; Tag.ImageLength; Tag.BitsPerSample] !! j = Some earlier ->
             exists tag v vs,
               tags_get Sample.tags_no_length earlier = Some tag /\ rawValue tag = v :: vs).
  { intros j earlier Hj Hlook. destruct j as [| j]; [| lia].
    injection Hlook as <-. exists (DngTag 256 Long [4%Z]), 4%Z, []. split; reflexivity. }
  assert (Hfirst : forall (j : nat) (earlier : tag_key),
             j < 0 ->
             [Tag.ImageWidth; Tag.ImageLength; Tag.BitsPerSample] !! j = Some earlier ->
             exists tag v vs,
               tags_get Cases.tags_empty_width earlier = Some tag /\ rawValue tag = v :: vs)
    by (intros j earlier Hj; lia).
  refine (conj Hnone (conj _ (conj Hempty _))).
  - exact (proj1 (process_unreadable_tags Sample.frame_u16 Sample.tags_no_length false 6
                    1 Tag.ImageLength eq_refl Hwidth) Hnone).
  - exact (proj2 (process_unreadable_tags Sample.frame_u16 Cases.tags_empty_width true 1
                    0 Tag.ImageWidth eq_refl Hfirst) _ Hempty eq_refl).
Defined.

Lemma predictor6_covers_even_rows_witness :
  dt Sample.frame_u16 <> float32
  /\ ljpegCompress = Some Sample.frame_bytes
  /\ (0 <= 1)%Z
  /\ exists coder_width coder_height,
      coder_calls (events (DNGBASE.__process__ Sample.frame_u16 Sample.tags_4x1 true 6))
      = [CoderCall Sample.frame_u16 coder_width coder_height 16 6]
      /\ (coder_width * coder_height = 4 * (1 - 1 mod 2))%Z.
Proof.
  assert (Hdt : dt Sample.frame_u16 <> float32) by discriminate.
  assert (Hw : DNGBASE.first_value (tags_get Sample.tags_4x1 Tag.ImageWidth) = Ok 4%Z)
    by reflexivity.
  assert (Hl : DNGBASE.first_value (tags_get Sample.tags_4x1 Tag.ImageLength) = Ok 1%Z)
    by reflexivity.
  assert (Hb : DNGBASE.first_value (tags_get Sample.tags_4x1 Tag.BitsPerSample) = Ok 16%Z)
    by reflexivity.
  assert (Hc : ljpegCompress = Some Sample.frame_bytes) by reflexivity.
  assert (Hlen : (0 <= 1)%Z) by lia.
  refine (conj Hdt (conj Hc (conj Hlen _))).
  exact (predictor6_covers_even_rows Sample.frame_u16 Sample.tags_4x1 4 1 16
           Sample.frame_bytes Hdt Hw Hl Hb Hc Hlen).
Defined.

Lemma uncompressed_8bit_low_bytes_witness :
  dt Cases.frame_wide <> float32 /\ dt Cases.frame_wide <> float64
  /\ DNGBASE.encode_tile Cases.frame_wide 2 1 8 false 6 = ([], Ok [3; 5]%Z).
Proof.
  assert (Hf32 : dt Cases.frame_wide <> float32) by discriminate.
  assert (Hf64 : dt Cases.frame_wide <> float64) by discriminate.
  refine (conj Hf32 (conj Hf64 _)).
  exact (uncompressed_8bit_low_bytes Cases.frame_wide 2 1 6 Hf32 Hf64).
Defined.

Lemma unpack16_of_serialised_witness :
  dt Cases.bytes4 = uint8 /\ dt Cases.frame_2x1 = uint16
  /\ stored_bpp (BaseCameraModel.fmt Cases.model16) = 16%Z
  /\ rectangular Cases.frame_2x1
  /\ rows Cases.bytes4 = map (fun r => concat (map (le_bytes 2) r)) (rows Cases.frame_2x1)
  /\ tobytes Cases.bytes4 = tobytes Cases.frame_2x1
  /\ RPICAM2DNG.__unpack_pixels__ (Some Cases.model16) Cases.bytes4 = Ok Cases.frame_2x1.
Proof.
  assert (Hrect : rectangular Cases.frame_2x1) by (repeat constructor).
  assert (Hrange : Forall (Forall (fun s => 0 <= s < 65536)%Z) (rows Cases.frame_2x1))
    by (repeat constructor; lia).
  refine (conj eq_refl (conj eq_refl (conj eq_refl (conj Hrect (conj eq_refl _))))).
  exact (unpack16_of_serialised Cases.model16 Cases.bytes4 Cases.frame_2x1
           eq_refl eq_refl eq_refl eq_refl Hrect Hrange eq_refl eq_refl).
Defined.

Lemma uncompressed_strip_length_witness :
  rectangular Sample.frame_u16
  /\ exists tile,
      DNGBASE.encode_tile Sample.frame_u16 4 1 16 false 6 = ([], Ok tile)
      /\ length tile = 2 * (1 * 4).
Proof.
  assert (Hrect : rectangular Sample.frame_u16) by (repeat constructor).
  refine (conj Hrect _).
  refine (uncompressed_strip_length Sample.frame_u16 4 1 16 6 Hrect _ _ _); discriminate.
Defined.

(** On a file system that takes every file, the sample conversion opens
    "out/frame.dng" once the buffer is there and writes the buffer to it. *)
Lemma convert_to_file_sample :
  exists buf,
    convert_unpacked Sample.raw2dng_ready Sample.tags_4x1 Sample.frame_u16 "frame"
    = ([Alloc 153; FileOpen "out/frame.dng"; FileWrite "out/frame.dng" buf],
       Ok (OutPath "out/frame.dng"))
    /\ length buf = 153.
Proof. eexists. split; vm_compute; reflexivity. Qed.

Lemma total_length_is_materialized_witness :
  (forall (t : dngTag) (pos : nat), length (encode_entry t pos) = entry_size)
  /\ DNG.dataLen Cases.two_directories = 54
  /\ materialized (DNG.write Cases.two_directories (bytearray 54)) = 54
  /\ length (DNG.write Cases.two_directories (bytearray 54)) = 54.
Proof.
  pose proof (proj1 (total_length_is_materialized sample_entry_sized)
                Cases.two_directories) as (_ & Hstored & Hlen).
  exact (conj sample_entry_sized (conj eq_refl (conj Hstored Hlen))).
Defined.

End EvaluationMore.

Section EvaluationWithoutDirectory.
#[local] Existing Instances Sample.registry Sample.compression Sample.versions
  Sample.sample_formats Sample.coder Sample.packing Sample.float_cast Sample.layout
  Cases.no_directory.


End EvaluationWithoutDirectory.


Section EvaluationWithoutCoder.
#[local] Existing Instances Sample.registry Sample.compression Sample.versions
  Sample.sample_formats Cases.no_coder Sample.packing Sample.float_cast Sample.layout
  Sample.file_system.

Lemma compressed_without_coder_witness :
  dt Sample.frame_u16 <> float32
  /\ ljpegCompress = None
  /\ DNGBASE.__process__ Sample.frame_u16 Sample.tags_4x1 true 7 = ([], Err ImportError).
Proof.
  assert (Hdt : dt Sample.frame_u16 <> float32) by discriminate.
  assert (Hw : DNGBASE.first_value (tags_get Sample.tags_4x1 Tag.ImageWidth) = Ok 4%Z)
    by reflexivity.
  assert (Hl : DNGBASE.first_value (tags_get Sample.tags_4x1 Tag.ImageLength) = Ok 1%Z)
    by reflexivity.
  assert (Hb : DNGBASE.first_value (tags_get Sample.tags_4x1 Tag.BitsPerSample) = Ok 16%Z)
    by reflexivity.
  assert (Hc : ljpegCompress = None) by reflexivity.
  refine (conj Hdt (conj Hc _)).
  exact (compressed_without_coder Sample.frame_u16 Sample.tags_4x1 7 4 1 16 Hdt Hw Hl Hb Hc).
Defined.

End EvaluationWithoutCoder.

Section EvaluationWithFailingCoder.
#[local] Existing Instances Sample.registry Sample.compression Sample.versions
  Sample.sample_formats Cases.failing_coder Sample.packing Sample.float_cast Sample.layout
  Sample.file_system.

Lemma coder_failure_propagates_witness :
  dt Sample.frame_u16 <> float32
  /\ ljpegCompress = Some Cases.failing
  /\ (6 = 1 \/ 6 = 6)%Z
  /\ Cases.failing Sample.frame_u16 8 0 16 6 = Err (ExternalError 1)
  /\ DNGBASE.__process__ Sample.frame_u16 Sample.tags_4x1 true 6
     = ([CoderCall Sample.frame_u16 8 0 16 6], Err (ExternalError 1)).
Proof.
  assert (Hdt : dt Sample.frame_u16 <> float32) by discriminate.
  assert (Hw : DNGBASE.first_value (tags_get Sample.tags_4x1 Tag.ImageWidth) = Ok 4%Z)
    by reflexivity.
  assert (Hl : DNGBASE.first_value (tags_get Sample.tags_4x1 Tag.ImageLength) = Ok 1%Z)
    by reflexivity.
  assert (Hb : DNGBASE.first_value (tags_get Sample.tags_4x1 Tag.BitsPerSample) = Ok 16%Z)
    by reflexivity.
  assert (Hc : ljpegCompress = Some Cases.failing) by reflexivity.
  assert (Hp : (6 = 1 \/ 6 = 6)%Z) by (right; reflexivity).
  refine (conj Hdt (conj Hc (conj Hp (conj eq_refl _)))).
  exact (coder_failure_propagates Sample.frame_u16 Sample.tags_4x1 6 4 1 16
           Cases.failing (ExternalError 1) Hdt Hw Hl Hb Hc Hp eq_refl).
Defined.

End EvaluationWithFailingCoder.
